(** * The plugin manager of Oni (browser/src/Plugins/PluginManager.ts)

    A shallow embedding of the class [PluginManager]: the values a plugin
    response is made of, the effects the manager has on its collaborators
    (UI, Neovim instance, channel, console, timers, its own event emitter),
    and its methods as computations over the manager's fields. *)

From Stdlib Require Import String ZArith List Bool DecimalString.
Import ListNotations.
Open Scope string_scope.
Set Warnings "-register-all".

(** ** JavaScript values

    [pluginResponse] is typed [any]; a response is a tree of plain data.
    Numbers are the integers (line and column numbers, versions, delays);
    objects are the lists of their own properties, the first binding of a
    key being the one that is read. *)

Module Js.

Inductive value : Type :=
| VUndefined
| VNull
| VBool (b : bool)
| VNum (n : Z)
| VStr (s : string)
| VArr (elements : list value)
| VObj (properties : list (string * value)).

Inductive Error : Type := TypeError.

(** The completion of an expression: it has a value or it throws. *)
Inductive completion (A : Type) : Type :=
| Return (a : A)
| Throw (e : Error).
Arguments Return {A} a.
Arguments Throw {A} e.

Definition nullish (v : value) : bool :=
  match v with
  | VUndefined | VNull => true
  | _ => false
  end.

Fixpoint lookup (k : string) (ps : list (string * value)) : value :=
  match ps with
  | [] => VUndefined
  | (k', v) :: rest => if String.eqb k k' then v else lookup k rest
  end.

Definition has_own (k : string) (ps : list (string * value)) : bool :=
  existsb (fun p => String.eqb k (fst p)) ps.

(** [v.k] where [v] is neither [undefined] nor [null].  None of the names
    this file reads is a property that primitives or arrays inherit. *)
Definition own_prop (v : value) (k : string) : value :=
  match v with
  | VObj ps => lookup k ps
  | _ => VUndefined
  end.

(** [v.k]: a TypeError on [undefined] and [null]. *)
Definition get_prop (v : value) (k : string) : completion value :=
  if nullish v then Throw TypeError else Return (own_prop v k).

(** [!!v] *)
Definition truthy (v : value) : bool :=
  match v with
  | VUndefined | VNull => false
  | VBool b => b
  | VNum n => negb (Z.eqb n 0)
  | VStr s => negb (String.eqb s "")
  | VArr _ | VObj _ => true
  end.

(** [a === b].  Every use in this file has a string literal or a field of
    the typed event context on the right, so two objects never meet. *)
Definition strict_equals (a b : value) : bool :=
  match a, b with
  | VUndefined, VUndefined => true
  | VNull, VNull => true
  | VBool x, VBool y => Bool.eqb x y
  | VNum x, VNum y => Z.eqb x y
  | VStr x, VStr y => String.eqb x y
  | _, _ => false
  end.

Definition string_of_Z (n : Z) : string :=
  NilZero.string_of_int (Z.to_int n).

(** [Number.isSafeInteger(n)]: the integers a JavaScript number holds
    exactly, up to [Number.MAX_SAFE_INTEGER] in size.  These are the
    numbers JavaScript prints as their decimal digits; larger ones are
    rounded, and from 10^21 on printed with an exponent. *)
Definition safeInteger (n : Z) : bool :=
  Z.leb (- 9007199254740991)%Z n && Z.leb n 9007199254740991%Z.

(** Every number in the value is a safe integer. *)
Fixpoint safeNumbers (v : value) : bool :=
  match v with
  | VNum n => safeInteger n
  | VArr xs => forallb safeNumbers xs
  | VObj ps => forallb (fun p => safeNumbers (snd p)) ps
  | _ => true
  end.

(** The conversion [+] applies to the right operand of ["..." + v].  An
    object whose own [toString] is data has no primitive value.  A number
    is converted to its decimal digits, which is JavaScript's conversion
    of a safe integer; what is stated of converted numbers is stated of
    values with [safeNumbers]. *)
Fixpoint ToString (v : value) : completion string :=
  match v with
  | VUndefined => Return "undefined"
  | VNull => Return "null"
  | VBool true => Return "true"
  | VBool false => Return "false"
  | VNum n => Return (string_of_Z n)
  | VStr s => Return s
  | VArr xs =>
      (fix join (l : list value) : completion string :=
         match l with
         | [] => Return ""
         | x :: rest =>
             let element :=
               match x with
               | VUndefined | VNull => Return ""
               | _ => ToString x
               end in
             match element with
             | Throw e => Throw e
             | Return s =>
                 match rest with
                 | [] => Return s
                 | _ :: _ =>
                     match join rest with
                     | Throw e => Throw e
                     | Return r => Return (s ++ "," ++ r)
                     end
                 end
             end
         end) xs
  | VObj ps =>
      if has_own "toString" ps then Throw TypeError
      else Return "[object Object]"
  end.

(** [{...base, k: v}]: an existing key keeps its place. *)
Fixpoint set_prop (k : string) (v : value) (ps : list (string * value))
  : list (string * value) :=
  match ps with
  | [] => [(k, v)]
  | (k', v') :: rest =>
      if String.eqb k k' then (k, v) :: rest
      else (k', v') :: set_prop k v rest
  end.

(** [{...base, ...extra}] *)
Definition spread (base extra : list (string * value))
  : list (string * value) :=
  fold_left (fun acc p => set_prop (fst p) (snd p) acc) extra base.

End Js.
Import Js.

(** ** Capabilities (./Api/Capabilities)

    The module is imported by the plugin manager and is not part of this
    file. *)

Module Capabilities.

Record Capabilities : Type := {
  languageService : option (list string);
  subscriptions : option (list string)
}.

Record PluginFilter : Type := {
  fileType : string;
  requiredCapabilities : Capabilities;
  isLanguageServiceRequired : bool
}.

(** Modelled from the spec: [createPluginFilter] of ./Api/Capabilities.  It
    is called with a file type, the required capabilities and whether a
    language service match is required; the filter is the record of these
    three. *)
Definition createPluginFilter (ft : string) (required : Capabilities)
    (lsRequired : bool) : PluginFilter :=
  {| fileType := ft;
     requiredCapabilities := required;
     isLanguageServiceRequired := lsRequired |}.

(** Modelled from the spec: what a plugin declares, which ./Plugin and
    ./Api/Capabilities define: its subscriptions, the language service
    features it implements, and the file types it is scoped to ([None] for
    every file type). *)
Record PluginCapabilities : Type := {
  pluginSubscriptions : list string;
  pluginLanguageService : list string;
  pluginFileTypes : option (list string)
}.

Definition declares (names : list string) (name : string) : bool :=
  existsb (String.eqb name) names.

Definition inScope (p : PluginCapabilities) (ft : string) : bool :=
  match pluginFileTypes p with
  | None => true
  | Some fts => declares fts ft
  end.

(** Modelled from the spec: the capability filter [matches] of
    ./Api/Capabilities, which is not part of this file.  A subscription
    requirement is met iff the plugin's subscription set contains its name;
    a language service requirement is met iff the plugin declares that
    capability and the file type is in the plugin's scope. *)
Definition matches (p : PluginCapabilities) (f : PluginFilter) : bool :=
  let required := requiredCapabilities f in
  match subscriptions required with
  | None => true
  | Some subs => forallb (declares (pluginSubscriptions p)) subs
  end
  &&
  match languageService required with
  | None => true
  | Some caps =>
      forallb (declares (pluginLanguageService p)) caps
      && inScope p (fileType f)
  end.

End Capabilities.

(** ** The manager's collaborators and fields *)

Module PluginManager.

Import Capabilities.

Record IBufferInfo : Type := {
  lines : list string;
  version : Z;
  fileName : string
}.

(** [Oni.EventContext], with the fields this file reads. *)
Record EventContext : Type := {
  bufferFullPath : string;
  line : Z;
  column : Z;
  byte : Z;
  filetype : string;
  bufferVersion : Z
}.

(** The context as the object that travels in a message. *)
Definition contextValue (c : EventContext) : value :=
  VObj [("bufferFullPath", VStr (bufferFullPath c));
        ("line", VNum (line c));
        ("column", VNum (column c));
        ("byte", VNum (byte c));
        ("filetype", VStr (filetype c));
        ("version", VNum (bufferVersion c))].

(** [this._lastEventContext] as a value: [undefined] before the first
    event. *)
Definition optContextValue (c : option EventContext) : value :=
  match c with
  | None => VUndefined
  | Some c => contextValue c
  end.

(** ./../Config: the keys read here, polled at each decision. *)
Record Config : Type := {
  quickInfoEnabled : bool;
  completionsEnabled : bool;
  quickInfoDelay : Z
}.

Inductive INeovimInstance : Type := NeovimInstance (id : nat).

Record State : Type := {
  _lastEventContext : option EventContext;
  _lastBufferInfo : option IBufferInfo;
  _neovimInstance : option INeovimInstance;
  _plugins : list string
}.

Definition initialState : State :=
  {| _lastEventContext := None;
     _lastBufferInfo := None;
     _neovimInstance := None;
     _plugins := [] |}.

Inductive UICall : Type :=
| hideQuickInfo
| showQuickInfo (info documentation : value)
| showCompletions (payload : value)
| setDetailedCompletionEntry (details : value).

(** The closures handed to [setTimeout], each with the response it
    captured. *)
Inductive Callback : Type :=
| ShowQuickInfoLater (pluginResponse : value)
| HideQuickInfoLater
| ShowCompletionsLater (pluginResponse : value)
| SetDetailedCompletionEntryLater (pluginResponse : value).

Inductive Effect : Type :=
| UI (call : UICall)
| NeovimCommand (command : string)
| Emit (name : string) (args : list value)
| ChannelSend (message : value) (filter : option PluginFilter)
| ConsoleLog (message : string)
| SetTimeout (callback : Callback) (delay : Z).

(** ** Computations: fields, effects in order, exceptions

    An exception ends the computation; the fields written and the effects
    made before it stay. *)

Record Outcome (A : Type) : Type := {
  result : completion A;
  final : State;
  trace : list Effect
}.
Arguments result {A} o.
Arguments final {A} o.
Arguments trace {A} o.

Definition M (A : Type) : Type := State -> Outcome A.

Definition ret {A} (a : A) : M A :=
  fun s => {| result := Return a; final := s; trace := [] |}.

Definition bind {A B} (m : M A) (f : A -> M B) : M B :=
  fun s =>
    match m s with
    | {| result := Throw e; final := s1; trace := t1 |} =>
        {| result := Throw e; final := s1; trace := t1 |}
    | {| result := Return a; final := s1; trace := t1 |} =>
        match f a s1 with
        | {| result := r; final := s2; trace := t2 |} =>
            {| result := r; final := s2; trace := t1 ++ t2 |}
        end
    end.

Definition lift {A} (c : completion A) : M A :=
  fun s => {| result := c; final := s; trace := [] |}.

Definition read {A} (field : State -> A) : M A :=
  fun s => {| result := Return (field s); final := s; trace := [] |}.

Definition write (update : State -> State) : M unit :=
  fun s => {| result := Return tt; final := update s; trace := [] |}.

Definition perform (e : Effect) : M unit :=
  fun s => {| result := Return tt; final := s; trace := [e] |}.

Declare Scope js_scope.
Delimit Scope js_scope with js.
Notation "x <- m ;; k" := (bind m (fun x => k))
  (at level 61, m at next level, right associativity) : js_scope.
Notation "m ;; k" := (bind m (fun _ => k))
  (at level 61, right associativity) : js_scope.
Open Scope js_scope.

Definition throw {A} (e : Error) : M A := lift (Throw e).

(** [a && b] on computations: [b] runs only when [a] is true. *)
Definition andThen (a b : M bool) : M bool :=
  x <- a ;; if x then b else ret false.

(** A field of [this._lastEventContext]: a TypeError while it is
    [undefined]. *)
Definition currentProp (currentEvent : option EventContext)
    (field : EventContext -> value) : M value :=
  match currentEvent with
  | None => throw TypeError
  | Some c => ret (field c)
  end.

(** [originEvent.k === currentEvent.k], left operand first. *)
Definition sameProp (originEvent : value) (currentEvent : option EventContext)
    (k : string) (field : EventContext -> value) : M bool :=
  o <- lift (get_prop originEvent k) ;;
  c <- currentProp currentEvent field ;;
  ret (strict_equals o c).

Definition abortedMessage : string :=
  "Plugin response aborted as it didn't match current even (buffer/line/col)".

Definition _validateOriginEventMatchesCurrentEvent (pluginResponse : value)
  : M bool :=
  currentEvent <- read _lastEventContext ;;
  meta <- lift (get_prop pluginResponse "meta") ;;
  originEvent <- lift (get_prop meta "originEvent") ;;
  same <- andThen
            (sameProp originEvent currentEvent "bufferFullPath"
               (fun c => VStr (bufferFullPath c)))
            (andThen
               (sameProp originEvent currentEvent "line"
                  (fun c => VNum (line c)))
               (sameProp originEvent currentEvent "column"
                  (fun c => VNum (column c)))) ;;
  if same then ret true
  else perform (ConsoleLog abortedMessage) ;; ret false.

(** [pluginResponse.type === name] *)
Definition typeIs (pluginResponse : value) (name : string) : M bool :=
  t <- lift (get_prop pluginResponse "type") ;;
  ret (strict_equals t (VStr name)).

(** [pluginResponse.payload.k] *)
Definition payloadProp (pluginResponse : value) (k : string) : M value :=
  payload <- lift (get_prop pluginResponse "payload") ;;
  lift (get_prop payload k).

(** [this._neovimInstance.command(arg)]: the method is looked up before
    the argument is evaluated. *)
Definition neovimCommand (arg : M string) : M unit :=
  nv <- read _neovimInstance ;;
  match nv with
  | None => throw TypeError
  | Some _ => cmd <- arg ;; perform (NeovimCommand cmd)
  end.

(** [prefix + v] *)
Definition concat (prefix : string) (v : value) : M string :=
  s <- lift (ToString v) ;; ret (prefix ++ s).

Section WithConfig.

Variable cfg : Config.

Definition _handlePluginResponse (pluginResponse : value) : M unit :=
  isQuickInfo <- typeIs pluginResponse "show-quick-info" ;;
  if isQuickInfo then
    valid <- _validateOriginEventMatchesCurrentEvent pluginResponse ;;
    if negb valid then ret tt
    else
      error <- lift (get_prop pluginResponse "error") ;;
      if negb (truthy error) then
        perform (UI hideQuickInfo) ;;
        perform (SetTimeout (ShowQuickInfoLater pluginResponse)
                   (quickInfoDelay cfg))
      else perform (SetTimeout HideQuickInfoLater 0)
  else
  isGoto <- typeIs pluginResponse "goto-definition" ;;
  if isGoto then
    valid <- _validateOriginEventMatchesCurrentEvent pluginResponse ;;
    if negb valid then ret tt
    else
      payload <- lift (get_prop pluginResponse "payload") ;;
      filePath <- lift (get_prop payload "filePath") ;;
      line <- lift (get_prop payload "line") ;;
      column <- lift (get_prop payload "column") ;;
      neovimCommand (concat "e! " filePath) ;;
      neovimCommand (a <- concat "keepjumps norm " line ;;
                     concat (a ++ "G") column) ;;
      neovimCommand (ret "norm zz")
  else
  isCompletion <- typeIs pluginResponse "completion-provider" ;;
  if isCompletion then
    valid <- _validateOriginEventMatchesCurrentEvent pluginResponse ;;
    if negb valid then ret tt
    else
      payload <- lift (get_prop pluginResponse "payload") ;;
      if negb (truthy payload) then ret tt
      else perform (SetTimeout (ShowCompletionsLater pluginResponse) 0)
  else
  isItemSelected <- typeIs pluginResponse "completion-provider-item-selected" ;;
  if isItemSelected then
    perform (SetTimeout (SetDetailedCompletionEntryLater pluginResponse) 0)
  else
  isSetErrors <- typeIs pluginResponse "set-errors" ;;
  if isSetErrors then
    key <- payloadProp pluginResponse "key" ;;
    fileName <- payloadProp pluginResponse "fileName" ;;
    errors <- payloadProp pluginResponse "errors" ;;
    color <- payloadProp pluginResponse "color" ;;
    perform (Emit "set-errors" [key; fileName; errors; color])
  else
  isFormat <- typeIs pluginResponse "format" ;;
  if isFormat then
    payload <- lift (get_prop pluginResponse "payload") ;;
    perform (Emit "format" [payload])
  else
  isShell <- typeIs pluginResponse "execute-shell-command" ;;
  if isShell then
    payload <- lift (get_prop pluginResponse "payload") ;;
    perform (Emit "execute-shell-command" [payload])
  else
  isEvaluate <- typeIs pluginResponse "evaluate-block-result" ;;
  if isEvaluate then
    payload <- lift (get_prop pluginResponse "payload") ;;
    perform (Emit "evaluate-block-result" [payload])
  else
  isSetHighlights <- typeIs pluginResponse "set-syntax-highlights" ;;
  if isSetHighlights then
    payload <- lift (get_prop pluginResponse "payload") ;;
    perform (Emit "set-syntax-highlights" [payload])
  else
  isClearHighlights <- typeIs pluginResponse "clear-syntax-highlights" ;;
  if isClearHighlights then
    payload <- lift (get_prop pluginResponse "payload") ;;
    perform (Emit "clear-syntax-highlights" [payload])
  else
  isSignatureHelp <- typeIs pluginResponse "signature-help-response" ;;
  if isSignatureHelp then
    error <- lift (get_prop pluginResponse "error") ;;
    payload <- lift (get_prop pluginResponse "payload") ;;
    perform (Emit "signature-help-response" [error; payload])
  else ret tt.

(** What a callback given to [setTimeout] does when the timer fires, on the
    fields as they are then. *)
Definition runCallback (cb : Callback) : M unit :=
  match cb with
  | ShowQuickInfoLater pluginResponse =>
      valid <- _validateOriginEventMatchesCurrentEvent pluginResponse ;;
      if negb valid then ret tt
      else
        info <- payloadProp pluginResponse "info" ;;
        documentation <- payloadProp pluginResponse "documentation" ;;
        perform (UI (showQuickInfo info documentation))
  | HideQuickInfoLater => perform (UI hideQuickInfo)
  | ShowCompletionsLater pluginResponse =>
      payload <- lift (get_prop pluginResponse "payload") ;;
      perform (UI (showCompletions payload))
  | SetDetailedCompletionEntryLater pluginResponse =>
      details <- payloadProp pluginResponse "details" ;;
      perform (UI (setDetailedCompletionEntry details))
  end.

End WithConfig.

(** ** Requests and editor events *)

Definition setLastEventContext (c : EventContext) (s : State) : State :=
  {| _lastEventContext := Some c;
     _lastBufferInfo := _lastBufferInfo s;
     _neovimInstance := _neovimInstance s;
     _plugins := _plugins s |}.

Definition setLastBufferInfo (b : IBufferInfo) (s : State) : State :=
  {| _lastEventContext := _lastEventContext s;
     _lastBufferInfo := Some b;
     _neovimInstance := _neovimInstance s;
     _plugins := _plugins s |}.

Definition setNeovimInstance (nv : INeovimInstance) (s : State) : State :=
  {| _lastEventContext := _lastEventContext s;
     _lastBufferInfo := _lastBufferInfo s;
     _neovimInstance := Some nv;
     _plugins := _plugins s |}.

Definition setPlugins (ps : list string) (s : State) : State :=
  {| _lastEventContext := _lastEventContext s;
     _lastBufferInfo := _lastBufferInfo s;
     _neovimInstance := _neovimInstance s;
     _plugins := ps |}.

(** [get currentBuffer()] *)
Definition currentBuffer (s : State) : option IBufferInfo :=
  _lastBufferInfo s.

Definition subscriptionTo (name : string) : Capabilities :=
  {| languageService := None; subscriptions := Some [name] |}.

Definition languageServiceFor (capability : string) : Capabilities :=
  {| languageService := Some [capability]; subscriptions := None |}.

Definition message (type : string) (payload : value) : value :=
  VObj [("type", VStr type); ("payload", payload)].

Definition _sendLanguageServiceRequest (requestName : string)
    (eventContext : option EventContext)
    (languageServiceCapability : option string)
    (additionalArgs : option (list (string * value))) : M unit :=
  let languageServiceCapability :=
    match languageServiceCapability with
    | Some c => if String.eqb c "" then requestName else c
    | None => requestName
    end in
  let additionalArgs :=
    match additionalArgs with
    | Some args => args
    | None => []
    end in
  let payload :=
    VObj (spread [("name", VStr requestName);
                  ("context", optContextValue eventContext)]
                 additionalArgs) in
  match eventContext with
  | None => throw TypeError
  | Some c =>
      perform (ChannelSend (message "request" payload)
                 (Some (createPluginFilter (filetype c)
                          (languageServiceFor languageServiceCapability)
                          true)))
  end.

Definition _onBufferUpdate (eventContext : EventContext)
    (bufferLines : list string) : M unit :=
  write (setLastBufferInfo
           {| lines := bufferLines;
              fileName := bufferFullPath eventContext;
              version := bufferVersion eventContext |}) ;;
  perform (ChannelSend
             (message "buffer-update"
                (VObj [("eventContext", contextValue eventContext);
                       ("bufferLines", VArr (map VStr bufferLines))]))
             (Some (createPluginFilter (filetype eventContext)
                      (subscriptionTo "buffer-update") false))).

Definition _onEvent (cfg : Config) (eventName : string)
    (eventContext : EventContext) : M unit :=
  write (setLastEventContext eventContext) ;;
  last <- read _lastEventContext ;;
  match last with
  | None => throw TypeError
  | Some c =>
      perform (ChannelSend
                 (message "event"
                    (VObj [("name", VStr eventName);
                           ("context", contextValue eventContext)]))
                 (Some (createPluginFilter (filetype c)
                          (subscriptionTo "vim-events") false)))
  end ;;
  if String.eqb eventName "CursorMoved" && quickInfoEnabled cfg then
    _sendLanguageServiceRequest "quick-info" (Some eventContext) None None
  else if String.eqb eventName "CursorMovedI" && completionsEnabled cfg then
    _sendLanguageServiceRequest "completion-provider" (Some eventContext)
      None None ;;
    _sendLanguageServiceRequest "signature-help" (Some eventContext)
      None None
  else ret tt.

Definition gotoDefinition : M unit :=
  c <- read _lastEventContext ;;
  _sendLanguageServiceRequest "goto-definition" c None None.

Definition requestFormat : M unit :=
  c <- read _lastEventContext ;;
  _sendLanguageServiceRequest "format" c (Some "formatting") None.

Definition requestEvaluateBlock (id fileName code : string) : M unit :=
  c <- read _lastEventContext ;;
  _sendLanguageServiceRequest "evaluate-block" c (Some "evaluate-block")
    (Some [("id", VStr id); ("fileName", VStr fileName);
           ("code", VStr code)]).

Definition notifyCompletionItemSelected (completionItem : value) : M unit :=
  c <- read _lastEventContext ;;
  _sendLanguageServiceRequest "completion-provider-item-selected" c
    (Some "completion-provider") (Some [("item", completionItem)]).

(** The callback [_createPlugin] registers for each command of a plugin. *)
Definition pluginCommand (args : value) : M unit :=
  c <- read _lastEventContext ;;
  perform (ChannelSend
             (message "command"
                (VObj [("args", args);
                       ("eventContext", optContextValue c)]))
             None).

(** [startPlugins]: keeps the Neovim instance and one plugin per directory
    that [_getAllPluginPaths] found; from then on the instance delivers
    "buffer-update" and "event" to [_onBufferUpdate] and [_onEvent]. *)
Definition startPlugins (neovimInstance : INeovimInstance)
    (allPlugins : list string) : M unit :=
  write (setNeovimInstance neovimInstance) ;;
  write (setPlugins allPlugins).

(** ** The manager in its environment

    The calls the environment makes on a manager.  The two private event
    handlers are reached only through the Neovim instance given to
    [startPlugins]. *)

Inductive Call : Type :=
| StartPlugins (neovimInstance : INeovimInstance) (allPlugins : list string)
| BufferUpdate (eventContext : EventContext) (bufferLines : list string)
| EditorEvent (eventName : string) (eventContext : EventContext)
| PluginResponse (pluginResponse : value)
| TimerFired (callback : Callback)
| GotoDefinition
| RequestFormat
| RequestEvaluateBlock (id fileName code : string)
| NotifyCompletionItemSelected (completionItem : value)
| PluginCommand (args : value).

Definition run (cfg : Config) (c : Call) : M unit :=
  match c with
  | StartPlugins nv ps => startPlugins nv ps
  | BufferUpdate ctx ls => _onBufferUpdate ctx ls
  | EditorEvent name ctx => _onEvent cfg name ctx
  | PluginResponse r => _handlePluginResponse cfg r
  | TimerFired cb => runCallback cb
  | GotoDefinition => gotoDefinition
  | RequestFormat => requestFormat
  | RequestEvaluateBlock id fileName code =>
      requestEvaluateBlock id fileName code
  | NotifyCompletionItemSelected item => notifyCompletionItemSelected item
  | PluginCommand args => pluginCommand args
  end.

Definition started (s : State) : bool :=
  match _neovimInstance s with
  | Some _ => true
  | None => false
  end.

Definition enabled (s : State) (c : Call) : bool :=
  match c with
  | BufferUpdate _ _ | EditorEvent _ _ => started s
  | _ => true
  end.

Inductive reachable : State -> Prop :=
| reachable_initial : reachable initialState
| reachable_step (cfg : Config) (c : Call) (s : State) :
    reachable s -> enabled s c = true -> reachable (final (run cfg c s)).

(** Event ingestion: the calls that stand for editor events. *)
Definition ingestion (c : Call) : bool :=
  match c with
  | BufferUpdate _ _ | EditorEvent _ _ => true
  | _ => false
  end.

End PluginManager.
Import Capabilities.
Import PluginManager.
Open Scope js_scope.

(** ** What the claims speak of *)

(** [pluginResponse.type] and [pluginResponse.meta.originEvent], as far as
    they are there. *)
Definition typeOf (pluginResponse : value) : value :=
  own_prop pluginResponse "type".

Definition payloadOf (pluginResponse : value) : value :=
  own_prop pluginResponse "payload".

Definition originEventOf (pluginResponse : value) : value :=
  own_prop (own_prop pluginResponse "meta") "originEvent".

(** The origin agrees with a context on buffer path, line and column. *)
Definition samePosition (origin : value) (c : EventContext) : Prop :=
  own_prop origin "bufferFullPath" = VStr (bufferFullPath c)
  /\ own_prop origin "line" = VNum (line c)
  /\ own_prop origin "column" = VNum (column c).

Definition samePositionb (origin : value) (c : EventContext) : bool :=
  strict_equals (own_prop origin "bufferFullPath") (VStr (bufferFullPath c))
  && (strict_equals (own_prop origin "line") (VNum (line c))
      && strict_equals (own_prop origin "column") (VNum (column c))).

(** The response is stamped with the manager's current context. *)
Definition matchesCurrent (pluginResponse : value) (s : State) : Prop :=
  exists c, _lastEventContext s = Some c
            /\ samePosition (originEventOf pluginResponse) c.

Definition originChecked (type : value) : Prop :=
  type = VStr "show-quick-info"
  \/ type = VStr "goto-definition"
  \/ type = VStr "completion-provider".

Definition recognizedTypes : list string :=
  ["show-quick-info"; "goto-definition"; "completion-provider";
   "completion-provider-item-selected"; "set-errors"; "format";
   "execute-shell-command"; "evaluate-block-result";
   "set-syntax-highlights"; "clear-syntax-highlights";
   "signature-help-response"].

Definition isLog (e : Effect) : bool :=
  match e with
  | ConsoleLog _ => true
  | _ => false
  end.

(** Nothing but console output: no UI call, no editor command, no host
    event, no message to plugins, no timer. *)
Definition silent (tr : list Effect) : Prop :=
  forallb isLog tr = true.

Definition returns {A} (a : A) (s : State) (tr : list Effect) : Outcome A :=
  {| result := Return a; final := s; trace := tr |}.

Definition throws {A} (e : Error) (s : State) (tr : list Effect)
  : Outcome A :=
  {| result := Throw e; final := s; trace := tr |}.

(** The messages of the event policy. *)
Definition eventMessage (eventName : string) (c : EventContext) : Effect :=
  ChannelSend
    (message "event"
       (VObj [("name", VStr eventName); ("context", contextValue c)]))
    (Some (createPluginFilter (filetype c) (subscriptionTo "vim-events")
             false)).

Definition languageServiceRequest (requestName : string) (c : EventContext)
    (extra : list (string * value)) (capability : string) : Effect :=
  ChannelSend
    (message "request"
       (VObj ([("name", VStr requestName); ("context", contextValue c)]
              ++ extra)))
    (Some (createPluginFilter (filetype c) (languageServiceFor capability)
             true)).

Definition bufferUpdateMessage (c : EventContext) (ls : list string)
  : Effect :=
  ChannelSend
    (message "buffer-update"
       (VObj [("eventContext", contextValue c);
              ("bufferLines", VArr (map VStr ls))]))
    (Some (createPluginFilter (filetype c) (subscriptionTo "buffer-update")
             false)).

Definition keepsState {A} (m : M A) : Prop := forall s, final (m s) = s.

(** ** Sample inputs: the scenarios of the specification *)

Definition defaultConfig : Config :=
  {| quickInfoEnabled := true;
     completionsEnabled := true;
     quickInfoDelay := 500 |}.

Definition contextAt (path : string) (l c : Z) : EventContext :=
  {| bufferFullPath := path; line := l; column := c; byte := 0;
     filetype := "typescript"; bufferVersion := 1 |}.

(** A manager that was started and whose last event was at [c]. *)
Definition stateAt (c : EventContext) : State :=
  {| _lastEventContext := Some c;
     _lastBufferInfo := None;
     _neovimInstance := Some (NeovimInstance 0);
     _plugins := [] |}.

Definition originAt (path : string) (l c : Z) : value :=
  VObj [("originEvent",
         VObj [("bufferFullPath", VStr path); ("line", VNum l);
               ("column", VNum c)])].

Definition gotoResponse : value :=
  VObj [("type", VStr "goto-definition");
        ("meta", originAt "/a.ts" 4 2);
        ("payload",
         VObj [("filePath", VStr "/b.ts"); ("line", VNum 10);
               ("column", VNum 3)])].

Definition gotoResponseWithoutMeta : value :=
  VObj [("type", VStr "goto-definition");
        ("payload",
         VObj [("filePath", VStr "/b.ts"); ("line", VNum 10);
               ("column", VNum 3)])].

Definition quickInfoResponse : value :=
  VObj [("type", VStr "show-quick-info");
        ("meta", originAt "/a.ts" 4 2);
        ("payload",
         VObj [("info", VStr "const x: number");
               ("documentation", VStr "A number.")])].

Definition itemSelectedResponse : value :=
  VObj [("type", VStr "completion-provider-item-selected");
        ("meta", originAt "/a.ts" 4 2);
        ("payload", VObj [("details", VStr "push(item): number")])].

Definition unrecognizedResponse : value :=
  VObj [("type", VStr "unrecognized-xyz"); ("payload", VNum 1)].

(** A plugin that declares the capability named after the request, and
    nothing else. *)
Definition itemSelectedOnlyPlugin : PluginCapabilities :=
  {| pluginSubscriptions := [];
     pluginLanguageService := ["completion-provider-item-selected"];
     pluginFileTypes := None |}.

(** ** Plugin discovery

    [getDirectories], [_getAllPluginPaths], [getAllRuntimePaths] and the
    list of roots the constructor builds.  The file system, [path.join] and
    the folders the host provides are the environment. *)

Module Discovery.

Inductive FsError : Type := SystemError (code : string).

Inductive outcome (A : Type) : Type :=
| Ok (a : A)
| Fail (e : FsError).
Arguments Ok {A} a.
Arguments Fail {A} e.

Record Host : Type := {
  join : list string -> string;                 (* path.join(...) *)
  existsSync : string -> bool;                  (* fs.existsSync *)
  readdirSync : string -> outcome (list string);  (* fs.readdirSync *)
  isDirectory : string -> outcome bool;   (* fs.statSync(f).isDirectory() *)
  dirname : string;                             (* __dirname *)
  homedir : string;                             (* os.homedir() *)
  userFolder : string                           (* Config.getUserFolder() *)
}.

(** [xs.filter(p)] where [p] may throw: the first failure ends it. *)
Fixpoint filterDirectories (h : Host) (paths : list string)
  : outcome (list string) :=
  match paths with
  | [] => Ok []
  | p :: rest =>
      match isDirectory h p with
      | Fail e => Fail e
      | Ok keep =>
          match filterDirectories h rest with
          | Fail e => Fail e
          | Ok kept => Ok (if keep then p :: kept else kept)
          end
      end
  end.

(** The entry is there and is a directory. *)
Definition isDir (h : Host) (p : string) : bool :=
  match isDirectory h p with
  | Ok true => true
  | _ => false
  end.

Definition getDirectories (h : Host) (rootPath : string)
  : outcome (list string) :=
  if negb (existsSync h rootPath) then Ok []
  else
    match readdirSync h rootPath with
    | Fail e => Fail e
    | Ok names =>
        filterDirectories h (map (fun f => join h [rootPath; f]) names)
    end.

(** The [forEach] of [_getAllPluginPaths], from the paths pushed so far. *)
Fixpoint pushDirectories (h : Host) (roots : list string)
    (paths : list string) : outcome (list string) :=
  match roots with
  | [] => Ok paths
  | rp :: rest =>
      match getDirectories h rp with
      | Fail e => Fail e
      | Ok subPaths => pushDirectories h rest (paths ++ subPaths)%list
      end
  end.

Definition _getAllPluginPaths (h : Host) (_rootPluginPaths : list string)
  : outcome (list string) :=
  pushDirectories h _rootPluginPaths [].

Definition getAllRuntimePaths (h : Host) (_rootPluginPaths : list string)
  : outcome (list string) :=
  match _getAllPluginPaths h _rootPluginPaths with
  | Fail e => Fail e
  | Ok pluginPaths => Ok (pluginPaths ++ _rootPluginPaths)%list
  end.

Definition corePluginsRoot (h : Host) : string :=
  join h [dirname h; "vim"; "core"].

Definition defaultPluginsRoot (h : Host) : string :=
  join h [dirname h; "vim"; "default"].

(** [_ensureOniPluginsPath], the directory it makes apart. *)
Definition _ensureOniPluginsPath (h : Host) : string :=
  join h [homedir h; ".oni"; "extensions"].

(** [_rootPluginPaths] as the constructor leaves it;
    [useDefaultConfig] is [Config.getValue("oni.useDefaultConfig")]. *)
Definition constructorRoots (h : Host) (useDefaultConfig : bool)
  : list string :=
  ([corePluginsRoot h]
   ++ (if useDefaultConfig
       then [defaultPluginsRoot h; join h [defaultPluginsRoot h; "bundle"]]
       else [])
   ++ [_ensureOniPluginsPath h]
   ++ [join h [userFolder h; "plugins"]])%list.

(** A host with one plugin directory and one file under its core root. *)
Definition sampleHost : Host :=
  {| join := String.concat "/";
     existsSync := fun p => String.eqb p "/app/vim/core";
     readdirSync := fun p =>
       if String.eqb p "/app/vim/core" then Ok ["typescript"; "README.md"]
       else Fail (SystemError "ENOENT");
     isDirectory := fun p =>
       if String.eqb p "/app/vim/core/typescript" then Ok true
       else if String.eqb p "/app/vim/core/README.md" then Ok false
       else Fail (SystemError "ENOENT");
     dirname := "/app";
     homedir := "/home/u";
     userFolder := "/home/u/.oni" |}.

End Discovery.

(** ** Runs of the manager and what its effects are *)

(** The fields after a sequence of calls; a call that throws leaves the
    fields it wrote, and the next call finds them. *)
Fixpoint runAll (cfg : Config) (calls : list Call) (s : State) : State :=
  match calls with
  | [] => s
  | c :: rest => runAll cfg rest (final (run cfg c s))
  end.

(** The context of the latest editor event among the calls, if any. *)
Fixpoint latestContext (calls : list Call) (before : option EventContext)
  : option EventContext :=
  match calls with
  | [] => before
  | EditorEvent _ c :: rest => latestContext rest (Some c)
  | _ :: rest => latestContext rest before
  end.

(** The buffer of the latest buffer update among the calls, if any. *)
Fixpoint latestBuffer (calls : list Call) (before : option IBufferInfo)
  : option IBufferInfo :=
  match calls with
  | [] => before
  | BufferUpdate c ls :: rest =>
      latestBuffer rest
        (Some {| lines := ls; fileName := bufferFullPath c;
                 version := bufferVersion c |})
  | _ :: rest => latestBuffer rest before
  end.

Definition isSend (e : Effect) : bool :=
  match e with
  | ChannelSend _ _ => true
  | _ => false
  end.

Definition fromPlugins (c : Call) : bool :=
  match c with
  | PluginResponse _ | TimerFired _ => true
  | _ => false
  end.

(** Editor events, buffer updates, the request methods and plugin
    commands. *)
Definition fromEditor (c : Call) : bool :=
  match c with
  | StartPlugins _ _ | PluginResponse _ | TimerFired _ => false
  | _ => true
  end.

(** Every effect of a computation satisfies [P], in every state. *)
Definition traceAll {A} (P : Effect -> bool) (m : M A) : Prop :=
  forall s, forallb P (trace (m s)) = true.

(** Where the editor is, as far as the origin check looks. *)
Definition position (c : EventContext) : string * Z * Z :=
  (bufferFullPath c, line c, column c).

(** Two states the response handler cannot tell apart: the same position
    of the last context, and both started or both not. *)
Definition samePlace (s1 s2 : State) : Prop :=
  option_map position (_lastEventContext s1) =
  option_map position (_lastEventContext s2)
  /\ started s1 = started s2.

Definition sameRun {A} (m : M A) : Prop :=
  forall s1 s2, samePlace s1 s2 ->
    result (m s1) = result (m s2) /\ trace (m s1) = trace (m s2).

Definition completionResponse (payload : value) : value :=
  VObj [("type", VStr "completion-provider");
        ("meta", originAt "/a.ts" 4 2);
        ("payload", payload)].

Definition formatResponse : value :=
  VObj [("type", VStr "format"); ("error", VStr "failed");
        ("payload", VObj [("edits", VArr [])])].

Definition setErrorsResponse : value :=
  VObj [("type", VStr "set-errors");
        ("payload",
         VObj [("key", VStr "ts"); ("fileName", VStr "/a.ts");
               ("errors", VArr []); ("color", VStr "red")])].

(** The types the handler passes on as host events with the payload
    alone. *)
Definition reemittedTypes : list string :=
  ["format"; "execute-shell-command"; "evaluate-block-result";
   "set-syntax-highlights"; "clear-syntax-highlights"].

Definition brokenGotoResponse : value :=
  VObj [("type", VStr "goto-definition");
        ("meta", originAt "/a.ts" 4 2);
        ("payload",
         VObj [("filePath", VStr "/b.ts");
               ("line", VObj [("toString", VNum 1)]);
               ("column", VNum 3)])].

(** ** Values *)

Lemma strict_equals_VStr v s :
  strict_equals v (VStr s) = true <-> v = VStr s.
Proof.
  destruct v; simpl; split; intros H; try discriminate.
  - apply String.eqb_eq in H. now subst.
  - injection H as ->. apply String.eqb_refl.
Qed.

Lemma strict_equals_VNum v n :
  strict_equals v (VNum n) = true <-> v = VNum n.
Proof.
  destruct v; simpl; split; intros H; try discriminate.
  - apply Z.eqb_eq in H. now subst.
  - injection H as ->. apply Z.eqb_refl.
Qed.

Lemma samePositionb_spec origin c :
  samePositionb origin c = true <-> samePosition origin c.
Proof.
  unfold samePositionb, samePosition.
  rewrite !andb_true_iff, !strict_equals_VStr, !strict_equals_VNum.
  tauto.
Qed.

Lemma samePosition_not_nullish origin c :
  samePosition origin c -> nullish origin = false.
Proof.
  intros [H _]. destruct origin; simpl in *; try discriminate; reflexivity.
Qed.

(** ** The origin check, evaluated *)


Ltac monad_red :=
  cbv beta iota zeta delta
    [bind andThen sameProp currentProp lift read write ret perform throw
     get_prop typeIs payloadProp neovimCommand concat returns throws].

Lemma validate_eval r s :
  _validateOriginEventMatchesCurrentEvent r s =
  if nullish (originEventOf r) then throws TypeError s []
  else match _lastEventContext s with
       | None => throws TypeError s []
       | Some c =>
           if samePositionb (originEventOf r) c then returns true s []
           else returns false s [ConsoleLog abortedMessage]
       end.
Proof.
  unfold originEventOf, samePositionb, _validateOriginEventMatchesCurrentEvent.
  destruct r as [| | | | | |ps]; try reflexivity.
  monad_red; cbn [own_prop nullish].
  destruct (lookup "meta" ps) as [| | | | | |ms]; cbn [own_prop nullish];
    try reflexivity;
    try (destruct (_lastEventContext s); reflexivity).
  destruct (lookup "originEvent" ms) as [| | | | | |os];
    cbn [own_prop nullish];
    try reflexivity;
    try (destruct (_lastEventContext s); reflexivity).
  destruct (_lastEventContext s) as [c|]; [|reflexivity].
  destruct (strict_equals (lookup "bufferFullPath" os) (VStr (bufferFullPath c))); [|reflexivity].
  destruct (strict_equals (lookup "line" os) (VNum (line c))); [|reflexivity].
  destruct (strict_equals (lookup "column" os) (VNum (column c))); reflexivity.
Qed.

(** ** Computations that leave the fields alone *)

Lemma keeps_ret {A} (a : A) : keepsState (ret a).
Proof. intros s. reflexivity. Qed.

Lemma keeps_lift {A} (c : completion A) : keepsState (lift c).
Proof. intros s. reflexivity. Qed.

Lemma keeps_throw {A} (e : Error) : keepsState (@throw A e).
Proof. intros s. reflexivity. Qed.

Lemma keeps_read {A} (field : State -> A) : keepsState (read field).
Proof. intros s. reflexivity. Qed.

Lemma keeps_perform (e : Effect) : keepsState (perform e).
Proof. intros s. reflexivity. Qed.

Lemma keeps_bind {A B} (m : M A) (f : A -> M B) :
  keepsState m -> (forall a, keepsState (f a)) -> keepsState (bind m f).
Proof.
  intros Hm Hf s. unfold bind.
  specialize (Hm s). destruct (m s) as [[a|e] s1 t1]; simpl in Hm; subst.
  - specialize (Hf a s). destruct (f a s) as [r s2 t2]. exact Hf.
  - reflexivity.
Qed.

Ltac frame_with tac :=
  repeat first
    [ tac
    | apply keeps_ret | apply keeps_lift | apply keeps_throw
    | apply keeps_read | apply keeps_perform
    | apply keeps_bind; [ | intros ? ]
    | match goal with
      | |- keepsState (if ?b then _ else _) => destruct b
      | |- keepsState (match ?x with _ => _ end) => destruct x
      end ].

Lemma keeps_validate r :
  keepsState (_validateOriginEventMatchesCurrentEvent r).
Proof.
  unfold _validateOriginEventMatchesCurrentEvent, andThen, sameProp,
    currentProp.
  frame_with fail.
Qed.

Ltac frame := frame_with ltac:(apply keeps_validate).

Lemma keeps_handlePluginResponse cfg r :
  keepsState (_handlePluginResponse cfg r).
Proof.
  unfold _handlePluginResponse, typeIs, payloadProp, neovimCommand, concat.
  frame.
Qed.

Lemma keeps_runCallback cb : keepsState (runCallback cb).
Proof. destruct cb; unfold runCallback, payloadProp; frame. Qed.

Lemma keeps_sendLanguageServiceRequest name ctx cap args :
  keepsState (_sendLanguageServiceRequest name ctx cap args).
Proof. unfold _sendLanguageServiceRequest. frame. Qed.

Lemma final_onEvent cfg name ctx s :
  final (_onEvent cfg name ctx s) = setLastEventContext ctx s.
Proof.
  unfold _onEvent, _sendLanguageServiceRequest.
  monad_red. cbn.
  destruct (String.eqb name "CursorMoved" && quickInfoEnabled cfg);
    [reflexivity|].
  destruct (String.eqb name "CursorMovedI" && completionsEnabled cfg);
    reflexivity.
Qed.

Lemma final_onBufferUpdate ctx ls s :
  final (_onBufferUpdate ctx ls s) =
  setLastBufferInfo
    {| lines := ls; fileName := bufferFullPath ctx;
       version := bufferVersion ctx |} s.
Proof. reflexivity. Qed.

Lemma keeps_public_requests :
  keepsState gotoDefinition
  /\ keepsState requestFormat
  /\ (forall id fileName code,
        keepsState (requestEvaluateBlock id fileName code))
  /\ (forall item, keepsState (notifyCompletionItemSelected item))
  /\ (forall args, keepsState (pluginCommand args)).
Proof.
  unfold gotoDefinition, requestFormat, requestEvaluateBlock,
    notifyCompletionItemSelected, pluginCommand.
  repeat split; intros;
    frame_with ltac:(apply keeps_sendLanguageServiceRequest).
Qed.

(** Every call but [startPlugins] and the two event handlers leaves all
    fields as they were. *)
Lemma run_keeps cfg c :
  ingestion c = false ->
  (forall nv ps, c <> StartPlugins nv ps) ->
  keepsState (run cfg c).
Proof.
  destruct keeps_public_requests as (Hg & Hf & He & Hn & Hp).
  destruct c; simpl; intros H Hstart; try discriminate; auto.
  - now elim (Hstart neovimInstance allPlugins).
  - apply keeps_handlePluginResponse.
  - apply keeps_runCallback.
Qed.

Lemma run_frame cfg c s :
  ingestion c = false ->
  _lastEventContext (final (run cfg c s)) = _lastEventContext s
  /\ _lastBufferInfo (final (run cfg c s)) = _lastBufferInfo s.
Proof.
  intros H.
  destruct c as [nv ps| | | | | | | | |];
    try (rewrite run_keeps by (try exact H; intros; discriminate);
         split; reflexivity).
  all: split; reflexivity.
Qed.

Lemma reachable_started s :
  reachable s -> _lastEventContext s <> None -> started s = true.
Proof.
  induction 1 as [|cfg c s Hs IH Hen]; intros Hctx.
  - now elim Hctx.
  - destruct c as [nv ps|ctx ls|name ctx| | | | | | |];
      try (rewrite run_keeps in Hctx |- *
             by (try reflexivity; intros; discriminate);
           exact (IH Hctx)).
    + reflexivity.
    + exact Hen.
    + simpl. rewrite final_onEvent. exact Hen.
Qed.

(** ** Dispatch on the response type *)

Lemma bind_typeIs {B} r name (f : bool -> M B) s :
  nullish r = false ->
  bind (typeIs r name) f s = f (strict_equals (typeOf r) (VStr name)) s.
Proof.
  intros H. unfold typeIs, get_prop, typeOf. rewrite H.
  cbv beta iota delta [bind lift ret]. cbn [app].
  destruct (f _ s); reflexivity.
Qed.

Lemma bind_validate {B} r (f : bool -> M B) s :
  bind (_validateOriginEventMatchesCurrentEvent r) f s =
  if nullish (originEventOf r) then throws TypeError s []
  else match _lastEventContext s with
       | None => throws TypeError s []
       | Some c =>
           if samePositionb (originEventOf r) c then f true s
           else bind (perform (ConsoleLog abortedMessage))
                  (fun _ => f false) s
       end.
Proof.
  unfold bind at 1. rewrite validate_eval.
  destruct (nullish (originEventOf r)); [reflexivity|].
  destruct (_lastEventContext s) as [c|]; [|reflexivity].
  destruct (samePositionb (originEventOf r) c); cbn.
  - destruct (f true s); reflexivity.
  - destruct (f false s); reflexivity.
Qed.

Lemma typeOf_not_nullish r t : typeOf r = VStr t -> nullish r = false.
Proof. destruct r; simpl; intros H; try discriminate; reflexivity. Qed.

Lemma unrecognized_test v names name :
  ~ In v (map VStr names) -> In name names ->
  strict_equals v (VStr name) = false.
Proof.
  intros Hv Hn. destruct (strict_equals v (VStr name)) eqn:E; [|reflexivity].
  apply strict_equals_VStr in E. subst v.
  elim Hv. now apply in_map.
Qed.

(** Runs the chain of tests on [pluginResponse.type] down to the branch
    of a response whose type is known. *)
Ltac dispatch Hnull Hty :=
  unfold _handlePluginResponse;
  repeat (rewrite (bind_typeIs _ _ _ _ Hnull); cbv beta; rewrite Hty;
          cbn [strict_equals String.eqb Ascii.eqb Bool.eqb]).

Lemma not_matching_test r s c :
  ~ matchesCurrent r s -> _lastEventContext s = Some c ->
  samePositionb (originEventOf r) c = false.
Proof.
  intros Hno Hc. destruct (samePositionb _ c) eqn:E; [|reflexivity].
  elim Hno. exists c. split; [exact Hc|]. now apply samePositionb_spec.
Qed.

Lemma matching_test r s :
  matchesCurrent r s ->
  exists c, _lastEventContext s = Some c
            /\ nullish (originEventOf r) = false
            /\ samePositionb (originEventOf r) c = true.
Proof.
  intros (c & Hc & Hsame). exists c. split; [exact Hc|]. split.
  - eapply samePosition_not_nullish; eauto.
  - now apply samePositionb_spec.
Qed.

Lemma append_assoc (a b c : string) : ((a ++ b) ++ c = a ++ (b ++ c))%string.
Proof. induction a as [|x a IH]; simpl; [reflexivity|now rewrite IH]. Qed.

Lemma stateAt_reachable c : reachable (stateAt c).
Proof.
  change (stateAt c) with
    (final (run defaultConfig (EditorEvent "BufEnter" c)
              (final (run defaultConfig (StartPlugins (NeovimInstance 0) [])
                        initialState)))).
  apply reachable_step; [apply reachable_step; [constructor|]|]; reflexivity.
Qed.

(** Before the first editor event there is no context, and a request
    fails on [eventContext.filetype] before anything is sent. *)
Lemma request_without_context name cap args s :
  _sendLanguageServiceRequest name None cap args s = throws TypeError s [].
Proof. reflexivity. Qed.

Example ToString_array :
  ToString (VArr [VNum 1; VNull; VArr [VStr "a"; VNum (-2)]; VBool true]) =
  Return "1,,a,-2,true".
Proof. reflexivity. Qed.

Example safeNumbers_bound :
  safeNumbers (VArr [VNum 9007199254740991; VObj [("line", VNum (-3))]]) = true
  /\ safeNumbers (VObj [("line", VNum (10 ^ 21))]) = false.
Proof. split; reflexivity. Qed.

Example ToString_object :
  ToString (VObj [("line", VNum 3)]) = Return "[object Object]"
  /\ ToString (VObj [("toString", VNum 3)]) = Throw TypeError.
Proof. split; reflexivity. Qed.

(** ** The claims *)

(** C1 (staleness rejection).  A response of an origin-checked type
    ("show-quick-info", "goto-definition", "completion-provider") that is
    not stamped with the manager's current context, on buffer path, line
    or column, has no observable effect: the fields stay as they are and
    nothing happens but console output.  When the response has an origin
    and the manager a context, the handler returns after the one line the
    origin check logs. *)
Theorem stale_response_discarded cfg r s :
  originChecked (typeOf r) ->
  ~ matchesCurrent r s ->
  final (_handlePluginResponse cfg r s) = s
  /\ silent (trace (_handlePluginResponse cfg r s))
  /\ (forall c, _lastEventContext s = Some c ->
        nullish (originEventOf r) = false ->
        _handlePluginResponse cfg r s =
        returns tt s [ConsoleLog abortedMessage]).
Proof.
  intros Hty Hstale.
  assert (Hnull : nullish r = false)
    by (destruct Hty as [H|[H|H]]; eapply typeOf_not_nullish; eauto).
  assert (Hout :
    _handlePluginResponse cfg r s =
    if nullish (originEventOf r) then throws TypeError s []
    else match _lastEventContext s with
         | None => throws TypeError s []
         | Some _ => returns tt s [ConsoleLog abortedMessage]
         end).
  { destruct Hty as [H|[H|H]]; dispatch Hnull H;
      rewrite bind_validate;
      (destruct (nullish (originEventOf r)); [reflexivity|]);
      (destruct (_lastEventContext s) as [c|] eqn:Hc; [|reflexivity]);
      rewrite (not_matching_test r s c Hstale Hc); reflexivity. }
  rewrite Hout. split; [|split].
  - destruct (nullish (originEventOf r)); [reflexivity|].
    destruct (_lastEventContext s); reflexivity.
  - destruct (nullish (originEventOf r)); [reflexivity|].
    destruct (_lastEventContext s); reflexivity.
  - intros c Hc Ho. rewrite Ho, Hc. reflexivity.
Qed.

Lemma stale_response_discarded_witness :
  originChecked (typeOf gotoResponse)
  /\ ~ matchesCurrent gotoResponse (stateAt (contextAt "/a.ts" 5 2))
  /\ _handlePluginResponse defaultConfig gotoResponse
       (stateAt (contextAt "/a.ts" 5 2)) =
     returns tt (stateAt (contextAt "/a.ts" 5 2))
       [ConsoleLog abortedMessage].
Proof.
  assert (H1 : originChecked (typeOf gotoResponse))
    by (right; left; reflexivity).
  assert (H2 : ~ matchesCurrent gotoResponse
                 (stateAt (contextAt "/a.ts" 5 2)))
    by (intros (c & Hc & _ & Hl & _); injection Hc as <-; discriminate Hl).
  split; [exact H1|split; [exact H2|]].
  exact (proj2 (proj2 (stale_response_discarded defaultConfig gotoResponse
                         (stateAt (contextAt "/a.ts" 5 2)) H1 H2))
           (contextAt "/a.ts" 5 2) eq_refl eq_refl).
Defined.

(** C2 (staleness acceptance, goto-definition).  In a reachable state, a
    "goto-definition" response stamped with the current context and
    carrying a payload issues exactly three editor commands, in order:
    open the payload's file, move to its line and column, centre the
    view.  The three payload fields enter the commands as strings; the
    numbers of the payload are safe integers, which JavaScript prints as
    their decimal digits. *)
Theorem goto_definition_navigates cfg r s filePath line column :
  reachable s ->
  typeOf r = VStr "goto-definition" ->
  matchesCurrent r s ->
  nullish (payloadOf r) = false ->
  safeNumbers (payloadOf r) = true ->
  ToString (own_prop (payloadOf r) "filePath") = Return filePath ->
  ToString (own_prop (payloadOf r) "line") = Return line ->
  ToString (own_prop (payloadOf r) "column") = Return column ->
  _handlePluginResponse cfg r s =
  returns tt s
    [NeovimCommand ("e! " ++ filePath);
     NeovimCommand ("keepjumps norm " ++ line ++ "G" ++ column);
     NeovimCommand "norm zz"].
Proof.
  intros Hreach Hty Hfresh Hpayload Hsafe Hfile Hline Hcolumn.
  pose proof (typeOf_not_nullish _ _ Hty) as Hnull.
  destruct (matching_test _ _ Hfresh) as (c & Hc & Ho & Hsame).
  assert (Hstarted : started s = true)
    by (apply reachable_started; [exact Hreach|congruence]).
  unfold started in Hstarted.
  destruct (_neovimInstance s) as [nv|] eqn:Hnv; [|discriminate].
  dispatch Hnull Hty.
  rewrite bind_validate, Ho, Hc, Hsame. cbn [negb].
  unfold payloadOf in *.
  monad_red. rewrite Hnull; cbv beta iota.
  rewrite Hpayload; cbv beta iota.
  rewrite Hfile, Hline, Hcolumn.
  repeat (rewrite Hnv; cbv beta iota).
  cbn [app]. rewrite !append_assoc. reflexivity.
Qed.

Lemma goto_definition_navigates_witness :
  reachable (stateAt (contextAt "/a.ts" 4 2))
  /\ matchesCurrent gotoResponse (stateAt (contextAt "/a.ts" 4 2))
  /\ safeNumbers (payloadOf gotoResponse) = true
  /\ _handlePluginResponse defaultConfig gotoResponse
       (stateAt (contextAt "/a.ts" 4 2)) =
     returns tt (stateAt (contextAt "/a.ts" 4 2))
       [NeovimCommand "e! /b.ts";
        NeovimCommand "keepjumps norm 10G3";
        NeovimCommand "norm zz"].
Proof.
  assert (H1 : matchesCurrent gotoResponse (stateAt (contextAt "/a.ts" 4 2)))
    by (exists (contextAt "/a.ts" 4 2); repeat split; reflexivity).
  split; [apply stateAt_reachable|split; [exact H1|split; [reflexivity|]]].
  exact (goto_definition_navigates defaultConfig gotoResponse
           (stateAt (contextAt "/a.ts" 4 2)) "/b.ts" "10" "3"
           (stateAt_reachable _) eq_refl H1 eq_refl eq_refl
           eq_refl eq_refl eq_refl).
Defined.

(** C3, as the code has it.  "completion-provider-item-selected" is not
    origin-checked: whatever its origin, such a response defers, with no
    delay, a call that surfaces the details of its payload; the deferred
    call does not look at the context either. *)
Theorem item_selected_bypasses_origin_check cfg r s :
  typeOf r = VStr "completion-provider-item-selected" ->
  _handlePluginResponse cfg r s =
  returns tt s [SetTimeout (SetDetailedCompletionEntryLater r) 0]
  /\ (forall s',
        nullish (payloadOf r) = false ->
        runCallback (SetDetailedCompletionEntryLater r) s' =
        returns tt s'
          [UI (setDetailedCompletionEntry (own_prop (payloadOf r) "details"))]).
Proof.
  intros Hty. pose proof (typeOf_not_nullish _ _ Hty) as Hnull. split.
  - dispatch Hnull Hty. reflexivity.
  - intros s' Hpayload. unfold runCallback, payloadOf in *.
    monad_red. rewrite Hnull; cbv beta iota.
    rewrite Hpayload. reflexivity.
Qed.

Lemma item_selected_bypasses_origin_check_witness :
  _handlePluginResponse defaultConfig itemSelectedResponse
    (stateAt (contextAt "/a.ts" 5 2)) =
  returns tt (stateAt (contextAt "/a.ts" 5 2))
    [SetTimeout (SetDetailedCompletionEntryLater itemSelectedResponse) 0]
  /\ runCallback (SetDetailedCompletionEntryLater itemSelectedResponse)
       (stateAt (contextAt "/a.ts" 6 1)) =
     returns tt (stateAt (contextAt "/a.ts" 6 1))
       [UI (setDetailedCompletionEntry (VStr "push(item): number"))].
Proof.
  destruct (item_selected_bypasses_origin_check defaultConfig
              itemSelectedResponse (stateAt (contextAt "/a.ts" 5 2))
              eq_refl) as [Hnow Hlater].
  split; [exact Hnow|].
  exact (Hlater (stateAt (contextAt "/a.ts" 6 1)) eq_refl).
Defined.

(** C3 fails as stated: a "completion-provider-item-selected" response
    stamped with line 4 arrives when the current context is at line 5,
    and is not discarded: a timer is set, and when it fires the details
    are shown. *)
Lemma stale_item_selected_is_applied :
  typeOf itemSelectedResponse = VStr "completion-provider-item-selected"
  /\ ~ matchesCurrent itemSelectedResponse (stateAt (contextAt "/a.ts" 5 2))
  /\ trace (_handlePluginResponse defaultConfig itemSelectedResponse
              (stateAt (contextAt "/a.ts" 5 2))) =
     [SetTimeout (SetDetailedCompletionEntryLater itemSelectedResponse) 0]
  /\ trace (runCallback (SetDetailedCompletionEntryLater itemSelectedResponse)
              (stateAt (contextAt "/a.ts" 5 2))) =
     [UI (setDetailedCompletionEntry (VStr "push(item): number"))]
  /\ ~ silent (trace (_handlePluginResponse defaultConfig
                        itemSelectedResponse
                        (stateAt (contextAt "/a.ts" 5 2)))).
Proof.
  repeat split.
  - intros (c & Hc & _ & Hl & _). injection Hc as <-. discriminate Hl.
  - intros H. discriminate H.
Qed.

(** C4, as the code has it.  A response of an origin-checked type without
    [meta.originEvent] (no [meta], or a [meta] without [originEvent]) makes
    the handler throw a TypeError in the origin check, before any effect:
    nothing is shown, sent, emitted or logged and the fields stay as they
    are. *)
Theorem missing_origin_throws cfg r s :
  originChecked (typeOf r) ->
  nullish (originEventOf r) = true ->
  _handlePluginResponse cfg r s = throws TypeError s [].
Proof.
  intros Hty Hmissing.
  assert (Hnull : nullish r = false)
    by (destruct Hty as [H|[H|H]]; eapply typeOf_not_nullish; eauto).
  destruct Hty as [H|[H|H]]; dispatch Hnull H;
    rewrite bind_validate, Hmissing; reflexivity.
Qed.

Lemma missing_origin_throws_witness :
  originChecked (typeOf gotoResponseWithoutMeta)
  /\ nullish (originEventOf gotoResponseWithoutMeta) = true
  /\ _handlePluginResponse defaultConfig gotoResponseWithoutMeta
       initialState =
     throws TypeError initialState [].
Proof.
  assert (H1 : originChecked (typeOf gotoResponseWithoutMeta))
    by (right; left; reflexivity).
  split; [exact H1|split; [reflexivity|]].
  exact (missing_origin_throws defaultConfig gotoResponseWithoutMeta
           initialState H1 eq_refl).
Defined.

(** C4 fails as stated: a "goto-definition" response without [meta] is not
    treated as a failed match (which returns after a log line); the
    handler throws. *)
Lemma response_without_meta_throws :
  originChecked (typeOf gotoResponseWithoutMeta)
  /\ own_prop gotoResponseWithoutMeta "meta" = VUndefined
  /\ result (_handlePluginResponse defaultConfig gotoResponseWithoutMeta
               (stateAt (contextAt "/a.ts" 4 2))) = Throw TypeError
  /\ result (_handlePluginResponse defaultConfig gotoResponseWithoutMeta
               (stateAt (contextAt "/a.ts" 4 2))) <> Return tt.
Proof.
  repeat split.
  - right; left; reflexivity.
  - intros H. discriminate H.
Qed.

(** C5 (show-quick-info).  For a response stamped with the current
    context: without an error, the handler hides the quick info and sets a
    timer with the configured delay; when the timer fires, the origin is
    checked again against the context of that moment, the info and
    documentation of the payload are shown if it still matches, and
    nothing but console output happens if it does not.  With a truthy
    error, the only thing set up is a deferred hide: nothing is shown. *)
Theorem show_quick_info_handling cfg r s :
  typeOf r = VStr "show-quick-info" ->
  matchesCurrent r s ->
  (truthy (own_prop r "error") = false ->
     _handlePluginResponse cfg r s =
     returns tt s
       [UI hideQuickInfo;
        SetTimeout (ShowQuickInfoLater r) (quickInfoDelay cfg)]
     /\ (forall s',
           matchesCurrent r s' -> nullish (payloadOf r) = false ->
           runCallback (ShowQuickInfoLater r) s' =
           returns tt s'
             [UI (showQuickInfo (own_prop (payloadOf r) "info")
                    (own_prop (payloadOf r) "documentation"))])
     /\ (forall s',
           ~ matchesCurrent r s' ->
           final (runCallback (ShowQuickInfoLater r) s') = s'
           /\ silent (trace (runCallback (ShowQuickInfoLater r) s'))))
  /\ (truthy (own_prop r "error") = true ->
        _handlePluginResponse cfg r s =
        returns tt s [SetTimeout HideQuickInfoLater 0]
        /\ forall s',
             runCallback HideQuickInfoLater s' =
             returns tt s' [UI hideQuickInfo]).
Proof.
  intros Hty Hfresh.
  pose proof (typeOf_not_nullish _ _ Hty) as Hnull.
  destruct (matching_test _ _ Hfresh) as (c & Hc & Ho & Hsame).
  assert (Hhandle :
    _handlePluginResponse cfg r s =
    if negb (truthy (own_prop r "error")) then
      returns tt s
        [UI hideQuickInfo;
         SetTimeout (ShowQuickInfoLater r) (quickInfoDelay cfg)]
    else returns tt s [SetTimeout HideQuickInfoLater 0]).
  { dispatch Hnull Hty.
    rewrite bind_validate, Ho, Hc, Hsame. cbn [negb].
    monad_red. rewrite Hnull.
    destruct (truthy (own_prop r "error")); reflexivity. }
  split; intros Herr; rewrite Hhandle, Herr; cbn [negb].
  - split; [reflexivity|]. split.
    + intros s' Hfresh' Hpayload.
      destruct (matching_test _ _ Hfresh') as (c' & Hc' & _ & Hsame').
      unfold runCallback. rewrite bind_validate, Ho, Hc', Hsame'.
      cbn [negb]. unfold payloadOf in *. monad_red.
      rewrite Hnull; cbv beta iota. rewrite Hpayload. reflexivity.
    + intros s' Hstale. unfold runCallback.
      rewrite bind_validate, Ho.
      destruct (_lastEventContext s') as [c'|] eqn:Hc';
        [|split; reflexivity].
      rewrite (not_matching_test r s' c' Hstale Hc').
      split; reflexivity.
  - split; reflexivity.
Qed.

Lemma show_quick_info_handling_witness :
  matchesCurrent quickInfoResponse (stateAt (contextAt "/a.ts" 4 2))
  /\ _handlePluginResponse defaultConfig quickInfoResponse
       (stateAt (contextAt "/a.ts" 4 2)) =
     returns tt (stateAt (contextAt "/a.ts" 4 2))
       [UI hideQuickInfo; SetTimeout (ShowQuickInfoLater quickInfoResponse) 500]
  /\ runCallback (ShowQuickInfoLater quickInfoResponse)
       (stateAt (contextAt "/a.ts" 4 2)) =
     returns tt (stateAt (contextAt "/a.ts" 4 2))
       [UI (showQuickInfo (VStr "const x: number") (VStr "A number."))].
Proof.
  assert (H1 : matchesCurrent quickInfoResponse
                 (stateAt (contextAt "/a.ts" 4 2)))
    by (exists (contextAt "/a.ts" 4 2); repeat split; reflexivity).
  destruct (proj1 (show_quick_info_handling defaultConfig quickInfoResponse
                     (stateAt (contextAt "/a.ts" 4 2)) eq_refl H1) eq_refl)
    as (Hnow & Hfresh & _).
  split; [exact H1|split; [exact Hnow|]].
  exact (Hfresh (stateAt (contextAt "/a.ts" 4 2)) H1 eq_refl).
Defined.

(** C6 (unknown response no-op).  A response whose type is none of the
    eleven the handler tests for has no effect at all: the handler returns,
    with nothing shown, sent, emitted, logged or deferred and the fields as
    they were. *)
Theorem unrecognized_response_ignored cfg r s :
  nullish r = false ->
  ~ In (typeOf r) (map VStr recognizedTypes) ->
  _handlePluginResponse cfg r s = returns tt s [].
Proof.
  intros Hnull Hty.
  assert (Hno : forall name, In name recognizedTypes ->
                  strict_equals (typeOf r) (VStr name) = false)
    by (intros; eapply unrecognized_test; eauto).
  unfold _handlePluginResponse.
  repeat (rewrite (bind_typeIs _ _ _ _ Hnull); cbv beta;
          rewrite Hno by (simpl; tauto)).
  reflexivity.
Qed.

Lemma unrecognized_response_ignored_witness :
  ~ In (typeOf unrecognizedResponse) (map VStr recognizedTypes)
  /\ _handlePluginResponse defaultConfig unrecognizedResponse initialState =
     returns tt initialState [].
Proof.
  assert (H1 : ~ In (typeOf unrecognizedResponse)
                  (map VStr recognizedTypes))
    by (simpl; intuition discriminate).
  split; [exact H1|].
  exact (unrecognized_response_ignored defaultConfig unrecognizedResponse
           initialState eq_refl H1).
Defined.

(** C7 (event-to-request policy).  After the event message, [_onEvent]
    sends: for "CursorMoved" with quick info enabled, one request
    [{name: "quick-info", context}] filtered to the language service
    capability "quick-info"; for "CursorMovedI" with completions enabled, a
    "completion-provider" and then a "signature-help" request; for any
    other event name, no request. *)
Theorem event_request_policy cfg eventName c s :
  (eventName = "CursorMoved" -> quickInfoEnabled cfg = true ->
     _onEvent cfg eventName c s =
     returns tt (setLastEventContext c s)
       [eventMessage eventName c;
        languageServiceRequest "quick-info" c [] "quick-info"])
  /\ (eventName = "CursorMovedI" -> completionsEnabled cfg = true ->
        _onEvent cfg eventName c s =
        returns tt (setLastEventContext c s)
          [eventMessage eventName c;
           languageServiceRequest "completion-provider" c []
             "completion-provider";
           languageServiceRequest "signature-help" c [] "signature-help"])
  /\ (eventName <> "CursorMoved" -> eventName <> "CursorMovedI" ->
        _onEvent cfg eventName c s =
        returns tt (setLastEventContext c s) [eventMessage eventName c]).
Proof.
  unfold _onEvent, _sendLanguageServiceRequest. monad_red.
  cbn [setLastEventContext _lastEventContext].
  repeat split.
  - intros -> ->. reflexivity.
  - intros -> ->. reflexivity.
  - intros H1 H2.
    apply String.eqb_neq in H1, H2. rewrite H1, H2. reflexivity.
Qed.

Lemma event_request_policy_witness :
  _onEvent defaultConfig "CursorMoved" (contextAt "/a.ts" 4 2) initialState =
  returns tt (setLastEventContext (contextAt "/a.ts" 4 2) initialState)
    [eventMessage "CursorMoved" (contextAt "/a.ts" 4 2);
     languageServiceRequest "quick-info" (contextAt "/a.ts" 4 2) []
       "quick-info"]
  /\ _onEvent defaultConfig "CursorMovedI" (contextAt "/a.ts" 4 2)
       initialState =
     returns tt (setLastEventContext (contextAt "/a.ts" 4 2) initialState)
       [eventMessage "CursorMovedI" (contextAt "/a.ts" 4 2);
        languageServiceRequest "completion-provider" (contextAt "/a.ts" 4 2)
          [] "completion-provider";
        languageServiceRequest "signature-help" (contextAt "/a.ts" 4 2) []
          "signature-help"]
  /\ _onEvent defaultConfig "BufEnter" (contextAt "/a.ts" 4 2) initialState =
     returns tt (setLastEventContext (contextAt "/a.ts" 4 2) initialState)
       [eventMessage "BufEnter" (contextAt "/a.ts" 4 2)].
Proof.
  split; [|split].
  - exact (proj1 (event_request_policy defaultConfig "CursorMoved"
                    (contextAt "/a.ts" 4 2) initialState) eq_refl eq_refl).
  - exact (proj1 (proj2 (event_request_policy defaultConfig "CursorMovedI"
                           (contextAt "/a.ts" 4 2) initialState))
             eq_refl eq_refl).
  - apply (proj2 (proj2 (event_request_policy defaultConfig "BufEnter"
                           (contextAt "/a.ts" 4 2) initialState)));
      intros H; discriminate H.
Defined.

(** C8 (buffer update).  [_onBufferUpdate] replaces the last buffer by
    [{lines, fileName = context.bufferFullPath, version = context.version}]
    and sends one "buffer-update" message with the context and the lines,
    filtered to the subscription "buffer-update" with no language service
    match required; [currentBuffer] then returns that buffer, which does not
    depend on what was there before; the last context is untouched. *)
Theorem buffer_update_overwrites c ls s :
  _onBufferUpdate c ls s =
  returns tt
    (setLastBufferInfo
       {| lines := ls; fileName := bufferFullPath c;
          version := bufferVersion c |} s)
    [bufferUpdateMessage c ls]
  /\ currentBuffer (final (_onBufferUpdate c ls s)) =
     Some {| lines := ls; fileName := bufferFullPath c;
             version := bufferVersion c |}
  /\ (forall s',
        currentBuffer (final (_onBufferUpdate c ls s')) =
        currentBuffer (final (_onBufferUpdate c ls s)))
  /\ _lastEventContext (final (_onBufferUpdate c ls s)) =
     _lastEventContext s.
Proof. repeat split. Qed.

(** C9 (single writer).  Handling a response, whatever it is, leaves the
    last context and the last buffer as they were, and so does every call
    on the manager other than the two editor event handlers. *)
Theorem single_writer cfg s :
  (forall r,
     _lastEventContext (final (_handlePluginResponse cfg r s)) =
     _lastEventContext s
     /\ _lastBufferInfo (final (_handlePluginResponse cfg r s)) =
        _lastBufferInfo s)
  /\ (forall c,
        ingestion c = false ->
        _lastEventContext (final (run cfg c s)) = _lastEventContext s
        /\ _lastBufferInfo (final (run cfg c s)) = _lastBufferInfo s).
Proof.
  split.
  - intros r. rewrite keeps_handlePluginResponse. split; reflexivity.
  - intros c. apply run_frame.
Qed.

Lemma single_writer_witness :
  _lastEventContext
    (final (run defaultConfig (TimerFired (ShowQuickInfoLater quickInfoResponse))
              (stateAt (contextAt "/a.ts" 4 2)))) =
  Some (contextAt "/a.ts" 4 2)
  /\ _lastBufferInfo
       (final (run defaultConfig
                 (TimerFired (ShowQuickInfoLater quickInfoResponse))
                 (stateAt (contextAt "/a.ts" 4 2)))) = None.
Proof.
  exact (proj2 (single_writer defaultConfig (stateAt (contextAt "/a.ts" 4 2)))
           (TimerFired (ShowQuickInfoLater quickInfoResponse)) eq_refl).
Defined.

(** C10.  Once the manager has a context, [notifyCompletionItemSelected]
    sends one request named "completion-provider-item-selected" whose
    filter asks for the language service capability "completion-provider";
    a plugin that does not declare "completion-provider", such as one
    declaring only "completion-provider-item-selected", does not match
    it. *)
Theorem item_selected_request_capability item s c :
  _lastEventContext s = Some c ->
  notifyCompletionItemSelected item s =
  returns tt s
    [languageServiceRequest "completion-provider-item-selected" c
       [("item", item)] "completion-provider"]
  /\ (forall p,
        declares (pluginLanguageService p) "completion-provider" = false ->
        matches p
          (createPluginFilter (filetype c)
             (languageServiceFor "completion-provider") true) = false)
  /\ matches itemSelectedOnlyPlugin
       (createPluginFilter (filetype c)
          (languageServiceFor "completion-provider") true) = false.
Proof.
  intros Hc. repeat split.
  - unfold notifyCompletionItemSelected, _sendLanguageServiceRequest.
    monad_red. rewrite Hc. reflexivity.
  - intros p Hp. unfold matches. cbn. rewrite Hp. reflexivity.
Qed.

Lemma item_selected_request_capability_witness :
  notifyCompletionItemSelected (VStr "push") (stateAt (contextAt "/a.ts" 4 2)) =
  returns tt (stateAt (contextAt "/a.ts" 4 2))
    [languageServiceRequest "completion-provider-item-selected"
       (contextAt "/a.ts" 4 2) [("item", VStr "push")] "completion-provider"].
Proof.
  exact (proj1 (item_selected_request_capability (VStr "push")
                  (stateAt (contextAt "/a.ts" 4 2)) (contextAt "/a.ts" 4 2)
                  eq_refl)).
Defined.

(** ** Further properties of the response handler *)

(** X1.  A "completion-provider" response stamped with the current context
    does nothing when its payload is falsy; otherwise it defers, with no
    delay, a call that shows the payload as completions.  The deferred call
    does not check the origin again: it shows the completions wherever the
    editor is by then. *)
Theorem completion_provider_handling cfg r s :
  typeOf r = VStr "completion-provider" ->
  matchesCurrent r s ->
  _handlePluginResponse cfg r s =
  (if truthy (payloadOf r)
   then returns tt s [SetTimeout (ShowCompletionsLater r) 0]
   else returns tt s [])
  /\ (forall s',
        runCallback (ShowCompletionsLater r) s' =
        returns tt s' [UI (showCompletions (payloadOf r))]).
Proof.
  intros Hty Hfresh.
  pose proof (typeOf_not_nullish _ _ Hty) as Hnull.
  destruct (matching_test _ _ Hfresh) as (c & Hc & Ho & Hsame).
  split.
  - dispatch Hnull Hty.
    rewrite bind_validate, Ho, Hc, Hsame. cbn [negb].
    unfold payloadOf. monad_red. rewrite Hnull; cbv beta iota.
    destruct (truthy (own_prop r "payload")); reflexivity.
  - intros s'. unfold runCallback, payloadOf. monad_red.
    rewrite Hnull. reflexivity.
Qed.

Lemma completion_provider_handling_witness :
  matchesCurrent (completionResponse (VArr [VStr "push"]))
    (stateAt (contextAt "/a.ts" 4 2))
  /\ _handlePluginResponse defaultConfig
       (completionResponse (VArr [VStr "push"]))
       (stateAt (contextAt "/a.ts" 4 2)) =
     returns tt (stateAt (contextAt "/a.ts" 4 2))
       [SetTimeout
          (ShowCompletionsLater (completionResponse (VArr [VStr "push"]))) 0]
  /\ runCallback
       (ShowCompletionsLater (completionResponse (VArr [VStr "push"])))
       (stateAt (contextAt "/b.ts" 9 9)) =
     returns tt (stateAt (contextAt "/b.ts" 9 9))
       [UI (showCompletions (VArr [VStr "push"]))].
Proof.
  assert (H1 : matchesCurrent (completionResponse (VArr [VStr "push"]))
                 (stateAt (contextAt "/a.ts" 4 2)))
    by (exists (contextAt "/a.ts" 4 2); repeat split; reflexivity).
  destruct (completion_provider_handling defaultConfig
              (completionResponse (VArr [VStr "push"]))
              (stateAt (contextAt "/a.ts" 4 2)) eq_refl H1) as [Hnow Hlater].
  split; [exact H1|split; [exact Hnow|]].
  exact (Hlater (stateAt (contextAt "/b.ts" 9 9))).
Defined.

(** X2.  A response of type "format", "execute-shell-command",
    "evaluate-block-result", "set-syntax-highlights" or
    "clear-syntax-highlights" is emitted as the host event of the same name
    with its payload as the only argument, in every state and whatever its
    origin, its error field or its payload are. *)
Theorem exempt_types_reemitted cfg r s t :
  In t reemittedTypes ->
  typeOf r = VStr t ->
  _handlePluginResponse cfg r s = returns tt s [Emit t [payloadOf r]].
Proof.
  intros Hin Hty.
  pose proof (typeOf_not_nullish _ _ Hty) as Hnull.
  simpl in Hin.
  destruct Hin as [<-|[<-|[<-|[<-|[<-|[]]]]]];
    dispatch Hnull Hty; unfold payloadOf; monad_red; rewrite Hnull;
    reflexivity.
Qed.

Lemma exempt_types_reemitted_witness :
  _handlePluginResponse defaultConfig formatResponse initialState =
  returns tt initialState [Emit "format" [VObj [("edits", VArr [])]]].
Proof.
  exact (exempt_types_reemitted defaultConfig formatResponse initialState
           "format" (or_introl eq_refl) eq_refl).
Defined.

(** X3.  A "set-errors" response is emitted as the host event "set-errors"
    with the key, file name, errors and color of its payload, in that
    order and with no origin check; without a payload the handler throws a
    TypeError and emits nothing. *)
Theorem set_errors_handling cfg r s :
  typeOf r = VStr "set-errors" ->
  _handlePluginResponse cfg r s =
  if nullish (payloadOf r) then throws TypeError s []
  else returns tt s
         [Emit "set-errors"
            [own_prop (payloadOf r) "key";
             own_prop (payloadOf r) "fileName";
             own_prop (payloadOf r) "errors";
             own_prop (payloadOf r) "color"]].
Proof.
  intros Hty. pose proof (typeOf_not_nullish _ _ Hty) as Hnull.
  dispatch Hnull Hty. unfold payloadOf. monad_red.
  rewrite Hnull; cbv beta iota.
  destruct (nullish (own_prop r "payload")); reflexivity.
Qed.

Lemma set_errors_handling_witness :
  _handlePluginResponse defaultConfig setErrorsResponse initialState =
  returns tt initialState
    [Emit "set-errors" [VStr "ts"; VStr "/a.ts"; VArr []; VStr "red"]].
Proof.
  exact (set_errors_handling defaultConfig setErrorsResponse initialState
           eq_refl).
Defined.

(** X4.  A "signature-help-response" is emitted as the host event of that
    name with the response's error first and its payload second, in every
    state; the error does not suppress it and no origin is checked. *)
Theorem signature_help_reemitted cfg r s :
  typeOf r = VStr "signature-help-response" ->
  _handlePluginResponse cfg r s =
  returns tt s
    [Emit "signature-help-response" [own_prop r "error"; payloadOf r]].
Proof.
  intros Hty. pose proof (typeOf_not_nullish _ _ Hty) as Hnull.
  dispatch Hnull Hty. unfold payloadOf. monad_red.
  rewrite Hnull. reflexivity.
Qed.

Lemma signature_help_reemitted_witness :
  _handlePluginResponse defaultConfig
    (VObj [("type", VStr "signature-help-response");
           ("error", VStr "no signature")])
    initialState =
  returns tt initialState
    [Emit "signature-help-response" [VStr "no signature"; VUndefined]].
Proof.
  exact (signature_help_reemitted defaultConfig
           (VObj [("type", VStr "signature-help-response");
                  ("error", VStr "no signature")])
           initialState eq_refl).
Defined.

(** X5.  How a fresh "goto-definition" response fails.  Without a payload
    the handler throws before any editor command.  With a payload whose
    numbers are safe integers, whose file path converts to a string and
    whose line does not, the file is opened and the handler then throws:
    the cursor is not moved and the view is not centred. *)
Theorem goto_definition_failures cfg r s :
  reachable s ->
  typeOf r = VStr "goto-definition" ->
  matchesCurrent r s ->
  (nullish (payloadOf r) = true ->
     _handlePluginResponse cfg r s = throws TypeError s [])
  /\ (forall filePath e,
        nullish (payloadOf r) = false ->
        safeNumbers (payloadOf r) = true ->
        ToString (own_prop (payloadOf r) "filePath") = Return filePath ->
        ToString (own_prop (payloadOf r) "line") = Throw e ->
        _handlePluginResponse cfg r s =
        throws e s [NeovimCommand ("e! " ++ filePath)]).
Proof.
  intros Hreach Hty Hfresh.
  pose proof (typeOf_not_nullish _ _ Hty) as Hnull.
  destruct (matching_test _ _ Hfresh) as (c & Hc & Ho & Hsame).
  assert (Hstarted : started s = true)
    by (apply reachable_started; [exact Hreach|congruence]).
  unfold started in Hstarted.
  destruct (_neovimInstance s) as [nv|] eqn:Hnv; [|discriminate].
  split.
  - intros Hpayload. dispatch Hnull Hty.
    rewrite bind_validate, Ho, Hc, Hsame. cbn [negb].
    unfold payloadOf in *. monad_red. rewrite Hnull; cbv beta iota.
    rewrite Hpayload. reflexivity.
  - intros filePath e Hpayload Hsafe Hfile Hline. dispatch Hnull Hty.
    rewrite bind_validate, Ho, Hc, Hsame. cbn [negb].
    unfold payloadOf in *. monad_red. rewrite Hnull; cbv beta iota.
    rewrite Hpayload; cbv beta iota.
    rewrite Hfile, Hline.
    repeat (rewrite Hnv; cbv beta iota).
    reflexivity.
Qed.

Lemma goto_definition_failures_witness :
  _handlePluginResponse defaultConfig brokenGotoResponse
    (stateAt (contextAt "/a.ts" 4 2)) =
  throws TypeError (stateAt (contextAt "/a.ts" 4 2))
    [NeovimCommand "e! /b.ts"].
Proof.
  assert (H1 : matchesCurrent brokenGotoResponse
                 (stateAt (contextAt "/a.ts" 4 2)))
    by (exists (contextAt "/a.ts" 4 2); repeat split; reflexivity).
  exact (proj2 (goto_definition_failures defaultConfig brokenGotoResponse
                  (stateAt (contextAt "/a.ts" 4 2))
                  (stateAt_reachable _) eq_refl H1)
           "/b.ts" TypeError eq_refl eq_refl eq_refl eq_refl).
Defined.

(** ** Which effects a call can have *)

Lemma all_ret {A} P (a : A) : traceAll P (ret a).
Proof. intros s. reflexivity. Qed.

Lemma all_lift {A} P (c : completion A) : traceAll P (lift c).
Proof. intros s. reflexivity. Qed.

Lemma all_throw {A} P (e : Error) : traceAll P (@throw A e).
Proof. intros s. reflexivity. Qed.

Lemma all_read {A} P (field : State -> A) : traceAll P (read field).
Proof. intros s. reflexivity. Qed.

Lemma all_write P (update : State -> State) : traceAll P (write update).
Proof. intros s. reflexivity. Qed.

Lemma all_perform (P : Effect -> bool) (e : Effect) :
  P e = true -> traceAll P (perform e).
Proof. intros H s. simpl. now rewrite H. Qed.

Lemma all_bind {A B} P (m : M A) (f : A -> M B) :
  traceAll P m -> (forall a, traceAll P (f a)) -> traceAll P (bind m f).
Proof.
  intros Hm Hf s. unfold bind.
  specialize (Hm s). destruct (m s) as [[a|e] s1 t1]; simpl in Hm.
  - specialize (Hf a s1). destruct (f a s1) as [r s2 t2]. simpl in *.
    rewrite forallb_app, Hm, Hf. reflexivity.
  - exact Hm.
Qed.

Ltac effects_with tac :=
  repeat first
    [ tac
    | apply all_ret | apply all_lift | apply all_throw
    | apply all_read | apply all_write
    | apply all_perform; reflexivity
    | apply all_bind; [ | intros ? ]
    | match goal with
      | |- traceAll _ (if ?b then _ else _) => destruct b
      | |- traceAll _ (match ?x with _ => _ end) => destruct x
      end ].

Lemma validate_never_sends r :
  traceAll (fun e => negb (isSend e))
    (_validateOriginEventMatchesCurrentEvent r).
Proof.
  unfold _validateOriginEventMatchesCurrentEvent, andThen, sameProp,
    currentProp.
  effects_with fail.
Qed.

(** X6.  Handling a response, and a deferred callback when its timer
    fires, never send anything on the channel: no response makes the
    manager message a plugin. *)
Theorem responses_never_send cfg c :
  fromPlugins c = true ->
  traceAll (fun e => negb (isSend e)) (run cfg c).
Proof.
  destruct c as [| | |r|cb| | | | |]; intros H; try discriminate H; simpl.
  - unfold _handlePluginResponse, typeIs, payloadProp, neovimCommand,
      concat.
    effects_with ltac:(apply validate_never_sends).
  - destruct cb; unfold runCallback, payloadProp;
      effects_with ltac:(apply validate_never_sends).
Qed.

Lemma responses_never_send_witness :
  forallb (fun e => negb (isSend e))
    (trace (run defaultConfig (PluginResponse gotoResponse)
              (stateAt (contextAt "/a.ts" 4 2)))) = true.
Proof.
  exact (responses_never_send defaultConfig (PluginResponse gotoResponse)
           eq_refl (stateAt (contextAt "/a.ts" 4 2))).
Defined.

(** X7.  An editor event, a buffer update, a request method or a plugin
    command has no effect but sending on the channel: it calls neither the
    UI nor the editor, emits no host event, sets no timer and logs
    nothing. *)
Theorem editor_calls_only_send cfg c :
  fromEditor c = true ->
  traceAll isSend (run cfg c).
Proof.
  destruct c; intros H; try discriminate H; simpl;
    unfold _onBufferUpdate, _onEvent, gotoDefinition,
      requestFormat, requestEvaluateBlock, notifyCompletionItemSelected,
      pluginCommand, _sendLanguageServiceRequest;
    effects_with fail.
Qed.

Lemma editor_calls_only_send_witness :
  forallb isSend
    (trace (run defaultConfig (EditorEvent "CursorMovedI"
                                 (contextAt "/a.ts" 4 2))
              initialState)) = true.
Proof.
  exact (editor_calls_only_send defaultConfig
           (EditorEvent "CursorMovedI" (contextAt "/a.ts" 4 2))
           eq_refl initialState).
Defined.

(** ** Sequences of calls *)

(** X8.  After any sequence of calls, in which some may throw, the last
    context is the context of the latest editor event of the sequence and
    the last buffer is the buffer of its latest buffer update; with no such
    call they are what they were before.  Earlier events and every other
    call leave no trace in them. *)
Theorem latest_event_wins cfg calls s :
  _lastEventContext (runAll cfg calls s) =
  latestContext calls (_lastEventContext s)
  /\ _lastBufferInfo (runAll cfg calls s) =
     latestBuffer calls (_lastBufferInfo s).
Proof.
  revert s. induction calls as [|c rest IH]; intros s; [split; reflexivity|].
  cbn [runAll]. destruct (IH (final (run cfg c s))) as [IHc IHb].
  rewrite IHc, IHb. clear IH IHc IHb.
  destruct c; cbn [latestContext latestBuffer];
    try (match goal with
         | |- context [run cfg ?c s] =>
             destruct (run_frame cfg c s eq_refl) as [Hc Hb]
         end;
         rewrite Hc, Hb; split; reflexivity);
    cbn [run]; rewrite ?final_onEvent, ?final_onBufferUpdate;
    split; reflexivity.
Qed.

(** X10.  Request and response correlate through the position.  A
    response stamped with the buffer path, line and column of an editor
    event passes the origin check right after that event, and still passes
    after a later event at the same path, line and column even if the rest
    of the context differs; after an event at another position the check
    fails with a log line. *)
Theorem origin_round_trip cfg eventName c s r :
  samePosition (originEventOf r) c ->
  _validateOriginEventMatchesCurrentEvent r
    (final (_onEvent cfg eventName c s)) =
  returns true (setLastEventContext c s) []
  /\ (forall cfg' eventName' c',
        _validateOriginEventMatchesCurrentEvent r
          (final (_onEvent cfg' eventName' c'
                    (final (_onEvent cfg eventName c s)))) =
        if String.eqb (bufferFullPath c) (bufferFullPath c')
           && (Z.eqb (line c) (line c') && Z.eqb (column c) (column c'))
        then returns true
               (setLastEventContext c' (setLastEventContext c s)) []
        else returns false
               (setLastEventContext c' (setLastEventContext c s))
               [ConsoleLog abortedMessage]).
Proof.
  intros Hsame.
  pose proof (samePosition_not_nullish _ _ Hsame) as Ho.
  destruct Hsame as (Hp & Hl & Hc).
  split.
  - rewrite validate_eval, final_onEvent, Ho.
    cbn [setLastEventContext _lastEventContext].
    unfold samePositionb. rewrite Hp, Hl, Hc. cbn [strict_equals].
    rewrite String.eqb_refl, !Z.eqb_refl. reflexivity.
  - intros cfg' eventName' c'.
    rewrite validate_eval, !final_onEvent, Ho.
    cbn [setLastEventContext _lastEventContext].
    unfold samePositionb. rewrite Hp, Hl, Hc. cbn [strict_equals].
    reflexivity.
Qed.

Lemma origin_round_trip_witness :
  samePosition (originEventOf gotoResponse) (contextAt "/a.ts" 4 2)
  /\ _validateOriginEventMatchesCurrentEvent gotoResponse
       (final (_onEvent defaultConfig "CursorMoved" (contextAt "/a.ts" 4 2)
                 initialState)) =
     returns true (setLastEventContext (contextAt "/a.ts" 4 2) initialState)
       [].
Proof.
  assert (H1 : samePosition (originEventOf gotoResponse)
                 (contextAt "/a.ts" 4 2))
    by (repeat split; reflexivity).
  split; [exact H1|].
  exact (proj1 (origin_round_trip defaultConfig "CursorMoved"
                  (contextAt "/a.ts" 4 2) initialState gotoResponse H1)).
Defined.

(** ** What the response handler looks at *)

Lemma same_ret {A} (a : A) : sameRun (ret a).
Proof. intros s1 s2 _. split; reflexivity. Qed.

Lemma same_lift {A} (c : completion A) : sameRun (lift c).
Proof. intros s1 s2 _. split; reflexivity. Qed.

Lemma same_throw {A} (e : Error) : sameRun (@throw A e).
Proof. intros s1 s2 _. split; reflexivity. Qed.

Lemma same_perform (e : Effect) : sameRun (perform e).
Proof. intros s1 s2 _. split; reflexivity. Qed.

Lemma same_bind {A B} (m : M A) (f : A -> M B) :
  sameRun m -> keepsState m -> (forall a, sameRun (f a)) ->
  sameRun (bind m f).
Proof.
  intros Hm Hk Hf s1 s2 Hs. unfold bind.
  destruct (Hm s1 s2 Hs) as [Hr Ht].
  pose proof (Hk s1) as H1. pose proof (Hk s2) as H2.
  destruct (m s1) as [r1 f1 t1], (m s2) as [r2 f2 t2].
  simpl in *. subst.
  destruct r2 as [a|e]; [|split; reflexivity].
  destruct (Hf a s1 s2 Hs) as [Hr' Ht'].
  destruct (f a s1), (f a s2). simpl in *. subst. split; reflexivity.
Qed.

Lemma same_validate r :
  sameRun (_validateOriginEventMatchesCurrentEvent r).
Proof.
  intros s1 s2 [Hpos _]. rewrite !validate_eval.
  destruct (nullish (originEventOf r)); [split; reflexivity|].
  destruct (_lastEventContext s1) as [c1|], (_lastEventContext s2) as [c2|];
    simpl in Hpos; try discriminate; [|split; reflexivity].
  injection Hpos as Hp Hl Hc.
  unfold samePositionb. rewrite Hp, Hl, Hc.
  match goal with |- context [if ?b then _ else _] => destruct b end;
    split; reflexivity.
Qed.

Lemma neovimCommand_eval (arg : M string) s :
  neovimCommand arg s =
  match _neovimInstance s with
  | None => throws TypeError s []
  | Some _ => (cmd <- arg ;; perform (NeovimCommand cmd)) s
  end.
Proof.
  unfold neovimCommand. unfold bind at 1. unfold read.
  destruct (_neovimInstance s); [|reflexivity].
  destruct ((cmd <- arg ;; perform (NeovimCommand cmd)) s); reflexivity.
Qed.

Lemma same_neovimCommand (arg : M string) :
  sameRun arg -> keepsState arg -> sameRun (neovimCommand arg).
Proof.
  intros Ha Hk s1 s2 Hs. pose proof Hs as [_ Hst].
  unfold started in Hst. rewrite !neovimCommand_eval.
  destruct (_neovimInstance s1), (_neovimInstance s2); try discriminate;
    [|split; reflexivity].
  apply same_bind; [exact Ha|exact Hk|intros; apply same_perform|exact Hs].
Qed.

Ltac same_run :=
  repeat first
    [ apply same_validate
    | apply same_neovimCommand; [ | solve [frame] ]
    | apply same_ret | apply same_lift | apply same_throw
    | apply same_perform
    | apply same_bind; [ | solve [frame] | intros ? ]
    | match goal with
      | |- sameRun (if ?b then _ else _) => destruct b
      | |- sameRun (match ?x with _ => _ end) => destruct x
      end ].

(** X11.  Of the manager's fields, handling a response and firing a
    deferred callback look only at the buffer path, line and column of the
    last context and at whether a Neovim instance is there: in two states
    that agree on these they return or throw alike and have the same
    effects, whatever the last buffer, the plugins and the rest of the
    context are. *)
Theorem responses_depend_on_position cfg c :
  fromPlugins c = true -> sameRun (run cfg c).
Proof.
  destruct c as [| | |r|cb| | | | |]; intros H; try discriminate H; simpl.
  - unfold _handlePluginResponse, typeIs, payloadProp, concat. same_run.
  - destruct cb; unfold runCallback, payloadProp; same_run.
Qed.

Lemma responses_depend_on_position_witness :
  result (run defaultConfig (PluginResponse gotoResponse)
            (stateAt (contextAt "/a.ts" 4 2))) =
  result (run defaultConfig (PluginResponse gotoResponse)
            (setLastBufferInfo
               {| lines := ["x"]; version := 7; fileName := "/a.ts" |}
               (stateAt {| bufferFullPath := "/a.ts"; line := 4;
                           column := 2; byte := 40; filetype := "javascript";
                           bufferVersion := 7 |})))
  /\ trace (run defaultConfig (PluginResponse gotoResponse)
              (stateAt (contextAt "/a.ts" 4 2))) =
     trace (run defaultConfig (PluginResponse gotoResponse)
              (setLastBufferInfo
                 {| lines := ["x"]; version := 7; fileName := "/a.ts" |}
                 (stateAt {| bufferFullPath := "/a.ts"; line := 4;
                             column := 2; byte := 40;
                             filetype := "javascript";
                             bufferVersion := 7 |}))).
Proof.
  apply (responses_depend_on_position defaultConfig
           (PluginResponse gotoResponse) eq_refl).
  split; reflexivity.
Defined.

(** ** Requests *)

(** X12.  Before the first editor event there is no context: each of the
    four request methods throws a TypeError and sends nothing, while a
    plugin command is still sent, unfiltered, with an undefined event
    context. *)
Theorem requests_need_context s :
  _lastEventContext s = None ->
  gotoDefinition s = throws TypeError s []
  /\ requestFormat s = throws TypeError s []
  /\ (forall id fileName code,
        requestEvaluateBlock id fileName code s = throws TypeError s [])
  /\ (forall item,
        notifyCompletionItemSelected item s = throws TypeError s [])
  /\ (forall args,
        pluginCommand args s =
        returns tt s
          [ChannelSend
             (message "command"
                (VObj [("args", args); ("eventContext", VUndefined)]))
             None]).
Proof.
  intros Hc.
  unfold gotoDefinition, requestFormat, requestEvaluateBlock,
    notifyCompletionItemSelected, pluginCommand, _sendLanguageServiceRequest.
  monad_red. rewrite Hc. repeat split.
Qed.

Lemma requests_need_context_witness :
  gotoDefinition initialState = throws TypeError initialState [].
Proof. exact (proj1 (requests_need_context initialState eq_refl)). Defined.

(** X13.  With a context, each request method sends exactly one request
    carrying that context: [gotoDefinition] one named "goto-definition"
    for the capability of the same name, [requestFormat] one named
    "format" for the capability "formatting", [requestEvaluateBlock] one
    named "evaluate-block" with the id, file name and code; and a plugin
    command carries the context as its event context.  All of them require
    a language service match, the command has no filter. *)
Theorem requests_with_context s c :
  _lastEventContext s = Some c ->
  gotoDefinition s =
  returns tt s
    [languageServiceRequest "goto-definition" c [] "goto-definition"]
  /\ requestFormat s =
     returns tt s [languageServiceRequest "format" c [] "formatting"]
  /\ (forall id fileName code,
        requestEvaluateBlock id fileName code s =
        returns tt s
          [languageServiceRequest "evaluate-block" c
             [("id", VStr id); ("fileName", VStr fileName);
              ("code", VStr code)]
             "evaluate-block"])
  /\ (forall args,
        pluginCommand args s =
        returns tt s
          [ChannelSend
             (message "command"
                (VObj [("args", args); ("eventContext", contextValue c)]))
             None]).
Proof.
  intros Hc.
  unfold gotoDefinition, requestFormat, requestEvaluateBlock, pluginCommand,
    _sendLanguageServiceRequest.
  monad_red. rewrite Hc. repeat split.
Qed.

Lemma requests_with_context_witness :
  requestFormat (stateAt (contextAt "/a.ts" 4 2)) =
  returns tt (stateAt (contextAt "/a.ts" 4 2))
    [languageServiceRequest "format" (contextAt "/a.ts" 4 2) []
       "formatting"].
Proof.
  exact (proj1 (proj2 (requests_with_context
                         (stateAt (contextAt "/a.ts" 4 2))
                         (contextAt "/a.ts" 4 2) eq_refl))).
Defined.

(** X14.  A feature that is switched off sends no request: "CursorMoved"
    with quick info disabled and "CursorMovedI" with completions disabled
    send the event message only, whatever the other switch is. *)
Theorem disabled_features_send_no_request cfg eventName c s :
  (eventName = "CursorMoved" -> quickInfoEnabled cfg = false ->
     _onEvent cfg eventName c s =
     returns tt (setLastEventContext c s) [eventMessage eventName c])
  /\ (eventName = "CursorMovedI" -> completionsEnabled cfg = false ->
        _onEvent cfg eventName c s =
        returns tt (setLastEventContext c s) [eventMessage eventName c]).
Proof.
  unfold _onEvent, _sendLanguageServiceRequest. monad_red.
  cbn [setLastEventContext _lastEventContext].
  split; intros -> ->; reflexivity.
Qed.

Lemma disabled_features_send_no_request_witness :
  _onEvent {| quickInfoEnabled := false; completionsEnabled := true;
              quickInfoDelay := 500 |}
    "CursorMoved" (contextAt "/a.ts" 4 2) initialState =
  returns tt (setLastEventContext (contextAt "/a.ts" 4 2) initialState)
    [eventMessage "CursorMoved" (contextAt "/a.ts" 4 2)].
Proof.
  exact (proj1 (disabled_features_send_no_request
                  {| quickInfoEnabled := false; completionsEnabled := true;
                     quickInfoDelay := 500 |}
                  "CursorMoved" (contextAt "/a.ts" 4 2) initialState)
           eq_refl eq_refl).
Defined.

(** ** Plugin discovery *)

Import Discovery.

Lemma filterDirectories_ok h paths kept :
  filterDirectories h paths = Ok kept <->
  (forall p, In p paths -> exists b, isDirectory h p = Ok b)
  /\ kept = filter (isDir h) paths.
Proof.
  revert kept. induction paths as [|p rest IH]; intros kept; simpl.
  - split.
    + intros H. injection H as <-. split; [intros p []|reflexivity].
    + intros [_ ->]. reflexivity.
  - unfold isDir at 1. destruct (isDirectory h p) as [b|e] eqn:Hp.
    + destruct (filterDirectories h rest) as [kept'|e'] eqn:Hrest.
      * destruct (proj1 (IH kept') eq_refl) as [Hall ->].
        split.
        -- intros H. injection H as <-. split.
           ++ intros q [<-|Hq]; [eauto|auto].
           ++ destruct b; reflexivity.
        -- intros [_ ->]. destruct b; reflexivity.
      * split; [discriminate|]. intros [Hall _].
        assert (Hok : Fail e' = Ok (filter (isDir h) rest)).
        { apply IH. split; [|reflexivity].
          intros q Hq. apply Hall. now right. }
        discriminate Hok.
    + split; [discriminate|]. intros [Hall _].
      destruct (Hall p (or_introl eq_refl)) as [b Hb]. congruence.
Qed.

(** X15.  [getDirectories] succeeds in exactly two cases: the root does
    not exist, and the result is empty without the directory being read;
    or the root exists, it can be listed and every entry can be examined,
    and the result is the entries that are directories, each joined to
    the root, in the order of the listing. *)
Theorem getDirectories_spec h rootPath ds :
  getDirectories h rootPath = Ok ds <->
  (existsSync h rootPath = false /\ ds = [])
  \/ (existsSync h rootPath = true
      /\ exists names,
           readdirSync h rootPath = Ok names
           /\ (forall f, In f names ->
                 exists b, isDirectory h (join h [rootPath; f]) = Ok b)
           /\ ds = filter (isDir h)
                     (map (fun f => join h [rootPath; f]) names)).
Proof.
  unfold getDirectories.
  destruct (existsSync h rootPath); simpl.
  - destruct (readdirSync h rootPath) as [names|e].
    + rewrite filterDirectories_ok. split.
      * intros [Hall ->]. right. split; [reflexivity|].
        exists names. split; [reflexivity|]. split; [|reflexivity].
        intros f Hf. apply Hall.
        exact (in_map (fun f => join h [rootPath; f]) names f Hf).
      * intros [[H _]|[_ (names' & Hn & Hall & ->)]]; [discriminate|].
        injection Hn as <-. split; [|reflexivity].
        intros p Hp. apply in_map_iff in Hp. destruct Hp as (f & <- & Hf).
        now apply Hall.
    + split; [discriminate|].
      intros [[H _]|[_ (names' & Hn & _)]]; discriminate.
  - split.
    + intros H. injection H as <-. now left.
    + intros [[_ ->]|[H _]]; [reflexivity|discriminate].
Qed.

Lemma getDirectories_spec_witness :
  getDirectories sampleHost "/app/vim/core" = Ok ["/app/vim/core/typescript"]
  /\ getDirectories sampleHost "/home/u/.oni/plugins" = Ok [].
Proof.
  split.
  - apply (proj2 (getDirectories_spec sampleHost "/app/vim/core"
                    ["/app/vim/core/typescript"])).
    right. split; [reflexivity|].
    exists ["typescript"; "README.md"].
    split; [reflexivity|]. split; [|reflexivity].
    intros f [<-|[<-|[]]]; [exists true|exists false]; reflexivity.
  - apply (proj2 (getDirectories_spec sampleHost "/home/u/.oni/plugins" [])).
    left. split; reflexivity.
Defined.

Lemma pushDirectories_from h roots paths :
  pushDirectories h roots paths =
  match pushDirectories h roots [] with
  | Ok found => Ok (paths ++ found)%list
  | Fail e => Fail e
  end.
Proof.
  revert paths. induction roots as [|rp rest IH]; intros paths; simpl.
  - now rewrite app_nil_r.
  - destruct (getDirectories h rp) as [subPaths|e]; [|reflexivity].
    rewrite (IH (paths ++ subPaths)%list), (IH subPaths).
    destruct (pushDirectories h rest []); [|reflexivity].
    now rewrite app_assoc.
Qed.

(** X16.  Discovery goes root by root: the plugin paths of two lists of
    roots put one after the other are the paths of the first followed by
    those of the second, and it fails with the first failure met in that
    order. *)
Theorem getAllPluginPaths_app h roots1 roots2 :
  _getAllPluginPaths h (roots1 ++ roots2) =
  match _getAllPluginPaths h roots1 with
  | Fail e => Fail e
  | Ok paths1 =>
      match _getAllPluginPaths h roots2 with
      | Fail e => Fail e
      | Ok paths2 => Ok (paths1 ++ paths2)%list
      end
  end.
Proof.
  unfold _getAllPluginPaths.
  induction roots1 as [|rp rest IH]; simpl.
  - destruct (pushDirectories h roots2 []); reflexivity.
  - destruct (getDirectories h rp) as [subPaths|e]; [|reflexivity].
    rewrite (pushDirectories_from h (rest ++ roots2) subPaths), IH.
    rewrite (pushDirectories_from h rest subPaths).
    destruct (pushDirectories h rest []) as [paths1|]; [|reflexivity].
    destruct (pushDirectories h roots2 []) as [paths2|]; [|reflexivity].
    now rewrite app_assoc.
Qed.

(** X17.  A root that does not exist is passed over: the plugin paths are
    those of the other roots.  A root that exists and cannot be listed
    makes the whole discovery fail with its error, once the roots before
    it have been searched; nothing is returned for the roots that could
    be. *)
Theorem getAllPluginPaths_missing_and_failing h roots1 rootPath roots2 :
  (existsSync h rootPath = false ->
     _getAllPluginPaths h (roots1 ++ rootPath :: roots2) =
     _getAllPluginPaths h (roots1 ++ roots2))
  /\ (forall e paths1,
        existsSync h rootPath = true ->
        readdirSync h rootPath = Fail e ->
        _getAllPluginPaths h roots1 = Ok paths1 ->
        _getAllPluginPaths h (roots1 ++ rootPath :: roots2) = Fail e).
Proof.
  split.
  - intros Hmissing. rewrite !getAllPluginPaths_app.
    destruct (_getAllPluginPaths h roots1); [|reflexivity].
    unfold _getAllPluginPaths at 1. cbn [pushDirectories].
    unfold getDirectories. rewrite Hmissing. reflexivity.
  - intros e paths1 Hexists Hfail H1. rewrite getAllPluginPaths_app, H1.
    unfold _getAllPluginPaths. cbn [pushDirectories].
    unfold getDirectories. rewrite Hexists, Hfail. reflexivity.
Qed.

Lemma getAllPluginPaths_missing_and_failing_witness :
  _getAllPluginPaths sampleHost
    ["/app/vim/core"; "/home/u/.oni/plugins"] =
  _getAllPluginPaths sampleHost ["/app/vim/core"].
Proof.
  exact (proj1 (getAllPluginPaths_missing_and_failing sampleHost
                  ["/app/vim/core"] "/home/u/.oni/plugins" [])
           eq_refl).
Defined.

(** X18.  When they can be computed, the runtime paths of a manager are
    the plugin paths found under its roots followed by the roots
    themselves, so every root the constructor listed is a runtime path
    whether or not it exists on disk: the core root, the extensions folder
    and the user's plugins folder always, the default root and its bundle
    folder when the default configuration is used. *)
Theorem runtime_paths_contain_roots h useDefaultConfig paths :
  getAllRuntimePaths h (constructorRoots h useDefaultConfig) = Ok paths ->
  (exists pluginPaths,
     _getAllPluginPaths h (constructorRoots h useDefaultConfig) =
     Ok pluginPaths
     /\ paths = (pluginPaths ++ constructorRoots h useDefaultConfig)%list)
  /\ In (corePluginsRoot h) paths
  /\ In (_ensureOniPluginsPath h) paths
  /\ In (join h [userFolder h; "plugins"]) paths
  /\ (useDefaultConfig = true ->
        In (defaultPluginsRoot h) paths
        /\ In (join h [defaultPluginsRoot h; "bundle"]) paths).
Proof.
  unfold getAllRuntimePaths.
  destruct (_getAllPluginPaths h (constructorRoots h useDefaultConfig))
    as [pluginPaths|e]; [|discriminate].
  intros H. injection H as <-.
  split; [exists pluginPaths; split; reflexivity|].
  assert (Hroot : forall p, In p (constructorRoots h useDefaultConfig) ->
                    In p (pluginPaths ++ constructorRoots h useDefaultConfig))
    by (intros p Hp; apply in_or_app; now right).
  assert (Hin : forall p b, In p (constructorRoots h false) ->
                  In p (constructorRoots h b))
    by (intros p [] Hp; unfold constructorRoots in *; simpl in *;
        intuition auto).
  split; [apply Hroot, Hin; simpl; auto|].
  split; [apply Hroot, Hin; simpl; auto|].
  split; [apply Hroot, Hin; simpl; auto|].
  intros ->. split; apply Hroot; simpl; auto.
Qed.

Lemma runtime_paths_contain_roots_witness :
  getAllRuntimePaths sampleHost (constructorRoots sampleHost false) =
  Ok ["/app/vim/core/typescript"; "/app/vim/core";
      "/home/u/.oni/extensions"; "/home/u/.oni/plugins"]
  /\ In "/home/u/.oni/plugins"
       ["/app/vim/core/typescript"; "/app/vim/core";
        "/home/u/.oni/extensions"; "/home/u/.oni/plugins"].
Proof.
  split; [reflexivity|].
  exact (proj1 (proj2 (proj2 (proj2
           (runtime_paths_contain_roots sampleHost false
              ["/app/vim/core/typescript"; "/app/vim/core";
               "/home/u/.oni/extensions"; "/home/u/.oni/plugins"]
              eq_refl))))).
Defined.

(** ** The quick info delay *)

(** X19.  While the quick info timer of a response is pending, an editor
    event at another buffer path, line or column cancels the display: when
    the timer fires there is a log line and nothing is shown.  A buffer
    update does not: if the position is still that of the response, the
    quick info is shown although the buffer has changed. *)
Theorem quick_info_delay_race cfg r s c :
  _lastEventContext s = Some c ->
  samePosition (originEventOf r) c ->
  nullish (payloadOf r) = false ->
  (forall eventName c',
     position c' <> position c ->
     runCallback (ShowQuickInfoLater r)
       (final (_onEvent cfg eventName c' s)) =
     returns tt (setLastEventContext c' s) [ConsoleLog abortedMessage])
  /\ (forall c' ls,
        runCallback (ShowQuickInfoLater r)
          (final (_onBufferUpdate c' ls s)) =
        returns tt (final (_onBufferUpdate c' ls s))
          [UI (showQuickInfo (own_prop (payloadOf r) "info")
                 (own_prop (payloadOf r) "documentation"))]).
Proof.
  intros Hc Hsame Hpayload.
  pose proof (samePosition_not_nullish _ _ Hsame) as Ho.
  assert (Hnull : nullish r = false).
  { destruct r; try reflexivity; destruct Hsame as [H _]; discriminate H. }
  split.
  - intros eventName c' Hmoved.
    rewrite final_onEvent. unfold runCallback.
    rewrite bind_validate, Ho.
    cbn [setLastEventContext _lastEventContext].
    destruct (samePositionb (originEventOf r) c') eqn:E; [|reflexivity].
    apply samePositionb_spec in E.
    destruct Hsame as (Hp & Hl & Hcol), E as (Hp' & Hl' & Hcol').
    elim Hmoved. unfold position. congruence.
  - intros c' ls. rewrite final_onBufferUpdate. unfold runCallback.
    rewrite bind_validate, Ho.
    cbn [setLastBufferInfo _lastEventContext]. rewrite Hc.
    apply samePositionb_spec in Hsame. rewrite Hsame. cbn [negb].
    unfold payloadOf in *. monad_red. rewrite Hnull; cbv beta iota.
    rewrite Hpayload. reflexivity.
Qed.

Lemma quick_info_delay_race_witness :
  runCallback (ShowQuickInfoLater quickInfoResponse)
    (final (_onEvent defaultConfig "CursorMoved" (contextAt "/a.ts" 5 2)
              (stateAt (contextAt "/a.ts" 4 2)))) =
  returns tt
    (setLastEventContext (contextAt "/a.ts" 5 2)
       (stateAt (contextAt "/a.ts" 4 2)))
    [ConsoleLog abortedMessage].
Proof.
  assert (H1 : samePosition (originEventOf quickInfoResponse)
                 (contextAt "/a.ts" 4 2))
    by (repeat split; reflexivity).
  apply (proj1 (quick_info_delay_race defaultConfig quickInfoResponse
                  (stateAt (contextAt "/a.ts" 4 2)) (contextAt "/a.ts" 4 2)
                  eq_refl H1 eq_refl)).
  intros H. discriminate H.
Defined.
